(** * Image model glue of the veo-app: a shallow embedding

    Source: [experiments/veo-app/models/image_models.py].

    The module is orchestration code around a hosted image-generation
    service.  It is embedded as follows.

    - Python values that flow through the module (SDK response objects,
      request dictionaries, strings, bytes) are duck typed in the source
      ([hasattr], attribute access, truthiness tests), so they are embedded
      as one type [pyval] whose objects carry a finite map of attributes.
    - A raised exception is a value of [exn]; a computation that may raise
      returns a [result].
    - The remote service, the storage collaborator, the UUID source and the
      clock are collaborators outside the module.  Their behaviour is taken
      as a parameter ([outside]); what the module does to them (calls
      issued, seconds slept, objects uploaded) is recorded in a [world] that
      is threaded through every operation.
    - [print] diagnostics have no effect on results and are left out, but
      the attribute accesses made while building a diagnostic line are kept,
      since they can raise. *)

From stdpp Require Import base option list gmap strings pretty.
From Stdlib Require Import ZArith Lia.
From Stdlib.Strings Require Import Byte.

#[local] Set Warnings "-register-all".
#[local] Open Scope string_scope.
#[local] Open Scope Z_scope.

(** ** Python values *)

Inductive pyval : Type :=
| PNone
| PBool (b : bool)
| PInt (z : Z)
| PStr (s : string)
| PBytes (bs : list byte)
| PList (items : list pyval)
| PDict (entries : gmap string pyval)
| PObj (attrs : gmap string pyval).

(** ** Exceptions

    [isinstance_Exception] separates the classes below [Exception] from
    those that derive from [BaseException] only. *)

Inductive exc_class : Type :=
| ValueError
| AttributeError
| TypeError
| IndexError
| KeyError
| RetryError
| KeyboardInterrupt
| SystemExit
| OtherException (name : string).

Definition isinstance_Exception (c : exc_class) : bool :=
  match c with
  | KeyboardInterrupt | SystemExit => false
  | _ => true
  end.

Record exn : Type := Exn { exn_type : exc_class; exn_msg : string }.

Inductive result (A : Type) : Type :=
| Ok (a : A)
| Raise (e : exn).
Arguments Ok {A} a.
Arguments Raise {A} e.

Definition result_bind {A B} (r : result A) (k : A -> result B) : result B :=
  match r with
  | Ok a => k a
  | Raise e => Raise e
  end.

Declare Scope result_scope.
Delimit Scope result_scope with result.
Notation "x <-! r ;; k" := (result_bind r (fun x => k))
  (at level 100, r at next level, right associativity) : result_scope.
#[local] Open Scope result_scope.

(** ** Truthiness, attributes, iteration, indexing *)

Definition truthy (v : pyval) : bool :=
  match v with
  | PNone => false
  | PBool b => b
  | PInt z => negb (z =? 0)
  | PStr s => negb (String.eqb s EmptyString)
  | PBytes bs => negb (Nat.eqb (length bs) 0)
  | PList items => negb (Nat.eqb (length items) 0)
  | PDict entries => negb (Nat.eqb (size entries) 0)
  | PObj _ => true
  end.

(** Data attributes only: none of the names the module asks for is an
    attribute of a built-in scalar, list or dict. *)
Definition attr_lookup (v : pyval) (name : string) : option pyval :=
  match v with
  | PObj attrs => attrs !! name
  | _ => None
  end.

Definition hasattr (v : pyval) (name : string) : bool :=
  match attr_lookup v name with
  | Some _ => true
  | None => false
  end.

Definition getattr (v : pyval) (name : string) : result pyval :=
  match attr_lookup v name with
  | Some x => Ok x
  | None => Raise (Exn AttributeError name)
  end.

Definition str_chars (s : string) : list pyval :=
  (fun a => PStr (String a EmptyString)) <$> String.list_ascii_of_string s.

Definition byte_ints (bs : list byte) : list pyval :=
  (fun b => PInt (Z.of_N (Byte.to_N b))) <$> bs.

(** [for x in v] and [enumerate(v)]. *)
Definition py_iter (v : pyval) : result (list pyval) :=
  match v with
  | PList items => Ok items
  | PStr s => Ok (str_chars s)
  | PBytes bs => Ok (byte_ints bs)
  | PDict entries => Ok ((fun kv => PStr kv.1) <$> map_to_list entries)
  | _ => Raise (Exn TypeError "object is not iterable")
  end.

(** [len(v)]. *)
Definition py_len (v : pyval) : result nat :=
  match v with
  | PList items => Ok (length items)
  | PStr s => Ok (String.length s)
  | PBytes bs => Ok (length bs)
  | PDict entries => Ok (size entries)
  | _ => Raise (Exn TypeError "object has no len()")
  end.

(** [v[0]]. *)
Definition py_first (v : pyval) : result pyval :=
  match v with
  | PList items =>
      match items with
      | x :: _ => Ok x
      | [] => Raise (Exn IndexError "list index out of range")
      end
  | PStr s =>
      match str_chars s with
      | x :: _ => Ok x
      | [] => Raise (Exn IndexError "string index out of range")
      end
  | PBytes bs =>
      match byte_ints bs with
      | x :: _ => Ok x
      | [] => Raise (Exn IndexError "index out of range")
      end
  | PDict entries =>
      Raise (Exn KeyError "0")
  | _ => Raise (Exn TypeError "object is not subscriptable")
  end.

(** ** Configuration ([config.default.Default])

    The class lives outside this module; the fields the module reads are
    taken as a record.  The three identifiers come from the environment and
    may be [None]. *)

Record Default : Type := {
  PROJECT_ID : option string;
  LOCATION : option string;
  MODEL_ID : option string;
  INIT_VERTEX : bool;
  IMAGE_BUCKET : string;
  IMAGEN_GENERATED_SUBFOLDER : string;
  IMAGEN_EDITED_SUBFOLDER : string;
  MODEL_IMAGEN4_FAST : string;
  MODEL_IMAGEN_PRODUCT_RECONTEXT : string
}.

(** Rendering of an identifier inside an f-string. *)
Definition fmt (o : option string) : string :=
  match o with
  | Some s => s
  | None => "None"
  end.

(** ** The client factory, [ImagenModelSetup.init] *)

(** The handle built by [genai.Client(vertexai=..., project=..., location=...)]. *)
Record client : Type := {
  client_vertexai : bool;
  client_project : option string;
  client_location : option string
}.

(** [not x] for an [Optional[str]]. *)
Definition falsy_opt (o : option string) : bool :=
  match o with
  | None => true
  | Some s => String.eqb s EmptyString
  end.

(** [if not x: x = default]. *)
Definition or_default (arg default : option string) : option string :=
  if falsy_opt arg then default else arg.

Definition is_None (o : option string) : bool :=
  match o with
  | None => true
  | Some _ => false
  end.

(** Lines 60-65: the three fall-backs. *)
Definition resolve_identifiers (config : Default)
    (project_id location model_id : option string)
  : option string * option string * option string :=
  (or_default project_id (PROJECT_ID config),
   or_default location (LOCATION config),
   or_default model_id (MODEL_ID config)).

Definition ImagenModelSetup_init (config : Default)
    (project_id location model_id : option string) : result client :=
  let '(project_id, location, model_id) :=
    resolve_identifiers config project_id location model_id in
  if existsb is_None [project_id; location; model_id] then
    Raise (Exn ValueError "All parameters must be set.")
  else
    Ok {| client_vertexai := INIT_VERTEX config;
          client_project := project_id;
          client_location := location |}.

(** ** Requests sent to the remote service *)

Record GenerateImagesConfig : Type := {
  number_of_images : Z;
  include_rai_reason : option bool;
  output_gcs_uri : option string;
  aspect_ratio : option string;
  negative_prompt : option string
}.

Record EditImageConfig : Type := {
  edit_mode : string;
  edit_number_of_images : Z;
  edit_include_rai_reason : bool;
  edit_output_gcs_uri : string;
  output_mime_type : string
}.

Inductive reference_image : Type :=
| RawReferenceImage (reference_id : Z) (reference_image : pyval)
| MaskReferenceImage (reference_id : Z) (mask_mode : string) (mask_dilation : Z).

Inductive api_call : Type :=
| models_generate_images
    (c : client) (model prompt : string) (config : GenerateImagesConfig)
| models_edit_image
    (c : client) (model prompt : string)
    (reference_images : list reference_image) (config : EditImageConfig)
| predict (endpoint : string) (instances : list pyval) (parameters : pyval).

(** Arguments of one [store_to_gcs] call. *)
Record upload : Type := {
  folder : string;
  file_name : string;
  mime_type : string;
  contents : list byte;
  decode : bool
}.

(** ** Collaborators and the world

    [service n call] is the outcome of the remote call issued when [n]
    calls were issued before it; [uuid4 n] is the [n]-th identifier drawn;
    [random_prompt] is what [VirtualModelGenerator.build_prompt] returns.
    [validate_reference_image v] is what the SDK makes of [v] when it is
    passed as the [reference_image] of a [types.RawReferenceImage]: the
    field is declared an optional [Image], the value is validated when the
    object is built, and a value the SDK does not take for an image makes
    the constructor raise. *)

Record outside : Type := {
  service : nat -> api_call -> result pyval;
  validate_reference_image : pyval -> result pyval;
  b64decode : pyval -> result (list byte);
  store_to_gcs : upload -> result string;
  uuid4 : nat -> string;
  random_prompt : string
}.

Record world : Type := {
  api_calls : list api_call;
  sleeps : list Z;
  uploads : list upload;
  uuids : nat
}.

Definition initial_world : world :=
  {| api_calls := []; sleeps := []; uploads := []; uuids := 0%nat |}.

(** A computation over the world that may raise. *)
Definition M (A : Type) : Type := world -> result A * world.

Definition ret {A} (a : A) : M A := fun w => (Ok a, w).

Definition bind {A B} (m : M A) (k : A -> M B) : M B :=
  fun w =>
    match m w with
    | (Ok a, w') => k a w'
    | (Raise e, w') => (Raise e, w')
    end.

Definition lift {A} (r : result A) : M A := fun w => (r, w).

Declare Scope M_scope.
Delimit Scope M_scope with M.
Notation "x <- m ;; k" := (bind m (fun x => k))
  (at level 100, m at next level, right associativity) : M_scope.

(** The world after a remote call, a sleep, a drawn UUID, an upload. *)
Definition called (request : api_call) (w : world) : world :=
  {| api_calls := (api_calls w ++ [request])%list; sleeps := sleeps w;
     uploads := uploads w; uuids := uuids w |}.

Definition slept (seconds : Z) (w : world) : world :=
  {| api_calls := api_calls w; sleeps := (sleeps w ++ [seconds])%list;
     uploads := uploads w; uuids := uuids w |}.

Definition drew (w : world) : world :=
  {| api_calls := api_calls w; sleeps := sleeps w;
     uploads := uploads w; uuids := S (uuids w) |}.

Definition stored (u : upload) (w : world) : world :=
  {| api_calls := api_calls w; sleeps := sleeps w;
     uploads := (uploads w ++ [u])%list; uuids := uuids w |}.

(** ** The retrying decorator ([tenacity.retry])

    The decorator calls the function; an outcome the [retry] predicate does
    not select is passed on as it is; otherwise, once [stop] holds of the
    attempt number, the last exception is raised again ([reraise]) or
    wrapped in a [RetryError]; otherwise it sleeps [wait] seconds and calls
    again.  The loop of the library is a [while True]; here it runs on
    fuel, and [None] means the fuel ran out. *)

Record retrying : Type := {
  wait : nat -> Z;
  stop : nat -> bool;
  retry : exn -> bool;
  reraise : bool
}.

(** [multiplier * 2 ** (attempt_number - 1)], clamped to [[min, max]]. *)
Definition wait_exponential (multiplier min max : Z) (attempt_number : nat) : Z :=
  Z.max (Z.max 0 min)
        (Z.min (multiplier * 2 ^ (Z.of_nat attempt_number - 1)) max).

Definition stop_after_attempt (max_attempt_number attempt_number : nat) : bool :=
  (max_attempt_number <=? attempt_number)%nat.

Definition retry_if_exception_type (exception_types : exc_class -> bool)
    (e : exn) : bool :=
  exception_types (exn_type e).

Fixpoint retry_call {A} (r : retrying) (fn : M A)
    (fuel attempt_number : nat) (w : world) : option (result A * world) :=
  match fuel with
  | O => None
  | S fuel' =>
      match fn w with
      | (Ok a, w1) => Some (Ok a, w1)
      | (Raise e, w1) =>
          if negb (retry r e) then Some (Raise e, w1)
          else if stop r attempt_number then
            Some (if reraise r then Raise e
                  else Raise (Exn RetryError (exn_msg e)), w1)
          else
            retry_call r fn fuel' (S attempt_number)
                       (slept (wait r attempt_number) w1)
      end
  end.

(** The decorator as written at lines 77-84 and 293-298. *)
Definition retry_policy : retrying :=
  {| wait := wait_exponential 1 1 10;
     stop := stop_after_attempt 3;
     retry := retry_if_exception_type isinstance_Exception;
     reraise := true |}.

(** ** The operations of the module *)

Section Operations.

Variable config : Default.
Variable env : outside.

#[local] Open Scope M_scope.

(** One call to the remote service. *)
Definition call (request : api_call) : M pyval :=
  fun w => (service env (length (api_calls w)) request, called request w).

Definition fresh_uuid : M string :=
  fun w => (Ok (uuid4 env (uuids w)), drew w).

Definition store (u : upload) : M string :=
  fun w => (store_to_gcs env u, stored u w).

(** [hasattr(v, name) and v.name] as a condition. *)
Definition attr_truthy (v : pyval) (name : string) : bool :=
  match attr_lookup v name with
  | Some x => truthy x
  | None => false
  end.

(** *** Diagnostics of [generate_images] (lines 117-154)

    Only the attribute accesses are kept. *)

Definition log_generated_image (gen_img : pyval) : result unit :=
  if attr_truthy gen_img "image" then
    image <-! getattr gen_img "image" ;;
    _ <-! getattr image "gcs_uri" ;;
    _ <-! getattr image "image_bytes" ;;
    Ok tt
  else Ok tt.

Fixpoint for_each (f : pyval -> result unit) (items : list pyval) : result unit :=
  match items with
  | [] => Ok tt
  | x :: rest => _ <-! f x ;; for_each f rest
  end.

Definition log_response (response : pyval) : result unit :=
  if truthy response && attr_truthy response "generated_images" then
    generated_images <-! getattr response "generated_images" ;;
    _ <-! py_len generated_images ;;
    items <-! py_iter generated_images ;;
    for_each log_generated_image items
  else Ok tt.

(** *** [generate_images] (lines 85-159)

    The [try ... except Exception as e: print(...); raise] passes every
    outcome of its body on unchanged. *)

Definition generate_request (c : client) (model prompt : string)
    (number_of_images : Z) (aspect_ratio negative_prompt : string) : api_call :=
  let gcs_output_directory :=
    "gs://" +:+ IMAGE_BUCKET config +:+ "/" +:+ IMAGEN_GENERATED_SUBFOLDER config in
  models_generate_images c model prompt
    {| number_of_images := number_of_images;
       include_rai_reason := Some true;
       output_gcs_uri := Some gcs_output_directory;
       aspect_ratio := Some aspect_ratio;
       negative_prompt := Some negative_prompt |}.

Definition generate_images_body (model prompt : string) (number_of_images : Z)
    (aspect_ratio negative_prompt : string) : M pyval :=
  client <- lift (ImagenModelSetup_init config None None (Some model)) ;;
  response <- call (generate_request client model prompt number_of_images
                                     aspect_ratio negative_prompt) ;;
  _ <- lift (log_response response) ;;
  ret response.

Definition generate_images (fuel : nat) (model prompt : string)
    (number_of_images : Z) (aspect_ratio negative_prompt : string)
    (w : world) : option (result pyval * world) :=
  retry_call retry_policy
    (generate_images_body model prompt number_of_images aspect_ratio negative_prompt)
    fuel 1 w.

(** *** Response normalization

    The comprehension
    [[img.image.gcs_uri for img in ... if hasattr(img, "image") and
    hasattr(img.image, "gcs_uri")]] of lines 182-186, 208-212 and 350-354. *)

Fixpoint gcs_uris (generated_images : list pyval) : result (list pyval) :=
  match generated_images with
  | [] => Ok []
  | img :: rest =>
      if hasattr img "image" then
        image <-! getattr img "image" ;;
        if hasattr image "gcs_uri" then
          image' <-! getattr img "image" ;;
          gcs_uri <-! getattr image' "gcs_uri" ;;
          uris <-! gcs_uris rest ;;
          Ok (gcs_uri :: uris)
        else gcs_uris rest
      else gcs_uris rest
  end.

(** Lines 182-187 and 208-213, after the call. *)
Definition generated_uris (response : pyval) : result (list pyval) :=
  generated_images <-! getattr response "generated_images" ;;
  items <-! py_iter generated_images ;;
  gcs_uris items.

Definition after_call {A B} (f : A -> result B)
    (r : option (result A * world)) : option (result B * world) :=
  match r with
  | None => None
  | Some (Ok a, w) => Some (f a, w)
  | Some (Raise e, w) => Some (Raise e, w)
  end.

Definition generate_images_from_prompt (fuel : nat)
    (input_txt current_model_name : string) (image_count : Z)
    (negative_prompt prompt_modifiers_segment aspect_ratio : string)
    (w : world) : option (result (list pyval) * world) :=
  let full_prompt := input_txt +:+ ", " +:+ prompt_modifiers_segment in
  after_call generated_uris
    (generate_images fuel current_model_name full_prompt image_count
                     aspect_ratio negative_prompt w).

Definition generate_virtual_models (fuel : nat) (prompt : string) (num_images : Z)
    (w : world) : option (result (list pyval) * world) :=
  after_call generated_uris
    (generate_images fuel (MODEL_IMAGEN4_FAST config) prompt num_images
                     "1:1" EmptyString w).

(** *** [generate_image_for_vto] (lines 216-248)

    Lines 245-248.  The [return] evaluates the same attribute chain a
    second time, with the same values. *)

Definition first_image_bytes (response : pyval) : result pyval :=
  generated_images <-! getattr response "generated_images" ;;
  if truthy generated_images then
    first <-! py_first generated_images ;;
    image <-! getattr first "image" ;;
    image_bytes <-! getattr image "image_bytes" ;;
    if truthy image_bytes then Ok image_bytes
    else Raise (Exn ValueError "Image generation failed or returned no data.")
  else Raise (Exn ValueError "Image generation failed or returned no data.").

Definition vto_request (c : client) : api_call :=
  models_generate_images c (MODEL_IMAGEN4_FAST config) (random_prompt env)
    {| number_of_images := 1;
       include_rai_reason := None;
       output_gcs_uri := None;
       aspect_ratio := Some "1:1";
       negative_prompt := None |}.

Definition generate_image_for_vto (prompt : string) : M pyval :=
  client <- lift (ImagenModelSetup_init config None None
                    (Some (MODEL_IMAGEN4_FAST config))) ;;
  response <- call (vto_request client) ;;
  lift (first_image_bytes response).

(** *** [recontextualize_product_in_scene] (lines 251-290) *)

Definition product_image (product_image_uri : string) : pyval :=
  PDict {[ "image" := PDict {[ "gcsUri" := PStr product_image_uri ]} ]}.

(** Lines 261-264: the list under ["productImages"] grows by one [append]
    per input URI. *)
Definition append_product_images (image_uris_list : list string)
    (productImages : list pyval) : list pyval :=
  fold_left (fun acc product_image_uri =>
               (acc ++ [product_image product_image_uri])%list)
            image_uris_list productImages.

(** Lines 261-267. *)
Definition build_instance (image_uris_list : list string) (prompt : string)
  : gmap string pyval :=
  let instance : gmap string pyval :=
    {[ "productImages" := PList (append_product_images image_uris_list []) ]} in
  if truthy (PStr prompt) then <[ "prompt" := PStr prompt ]> instance
  else instance.

Definition model_endpoint : string :=
  "projects/" +:+ fmt (PROJECT_ID config) +:+ "/locations/" +:+ fmt (LOCATION config)
  +:+ "/publishers/google/models/" +:+ MODEL_IMAGEN_PRODUCT_RECONTEXT config.

Definition recontext_request (image_uris_list : list string) (prompt : string)
    (sample_count : Z) : api_call :=
  predict model_endpoint
          [PDict (build_instance image_uris_list prompt)]
          (PDict {[ "sampleCount" := PInt sample_count ]}).

(** [d.get(key)]. *)
Definition dict_get (d : pyval) (key : string) : result pyval :=
  match d with
  | PDict entries => Ok (default PNone (entries !! key))
  | _ => Raise (Exn AttributeError "get")
  end.

(** [d[key]]. *)
Definition dict_item (d : pyval) (key : string) : result pyval :=
  match d with
  | PDict entries =>
      match entries !! key with
      | Some v => Ok v
      | None => Raise (Exn KeyError key)
      end
  | _ => Raise (Exn TypeError "object is not subscriptable")
  end.

Definition recontext_upload (u : string) (mask_bytes : list byte) : upload :=
  {| folder := "recontext_results";
     file_name := "recontext_result_" +:+ u +:+ ".png";
     mime_type := "image/png";
     contents := mask_bytes;
     decode := false |}.

(** Lines 276-288: the loop over the predictions, [gcs_uris] being the list
    built so far. *)
Fixpoint store_predictions (predictions : list pyval) (gcs_uris : list string)
  : M (list string) :=
  match predictions with
  | [] => ret gcs_uris
  | prediction :: rest =>
      payload <- lift (dict_get prediction "bytesBase64Encoded") ;;
      if truthy payload then
        encoded_mask_string <- lift (dict_item prediction "bytesBase64Encoded") ;;
        mask_bytes <- lift (b64decode env encoded_mask_string) ;;
        u <- fresh_uuid ;;
        gcs_uri <- store (recontext_upload u mask_bytes) ;;
        store_predictions rest (gcs_uris ++ [gcs_uri])%list
      else store_predictions rest gcs_uris
  end.

Definition recontextualize_product_in_scene (image_uris_list : list string)
    (prompt : string) (sample_count : Z) : M (list string) :=
  response <- call (recontext_request image_uris_list prompt sample_count) ;;
  predictions <- lift (getattr response "predictions") ;;
  items <- lift (py_iter predictions) ;;
  store_predictions items [].

(** *** [edit_image] (lines 299-369) *)

(** Lines 342-365. *)
Definition edited_uris (response : pyval) : result (list pyval) :=
  if truthy response && attr_truthy response "generated_images" then
    generated_images <-! getattr response "generated_images" ;;
    _ <-! py_len generated_images ;;
    items <-! py_iter generated_images ;;
    gcs_uris items
  else if truthy response && hasattr response "error" then Ok []
  else Ok [].

Definition edit_request (c : client) (model prompt edit_mode mask_mode : string)
    (reference_image : pyval) (number_of_images : Z) : api_call :=
  let gcs_output_directory :=
    "gs://" +:+ IMAGE_BUCKET config +:+ "/" +:+ IMAGEN_EDITED_SUBFOLDER config in
  models_edit_image c model prompt
    [RawReferenceImage 1 reference_image;
     MaskReferenceImage 2 mask_mode 0]
    {| edit_mode := edit_mode;
       edit_number_of_images := number_of_images;
       edit_include_rai_reason := true;
       edit_output_gcs_uri := gcs_output_directory;
       output_mime_type := "image/jpeg" |}.

(** Lines 308-340. The reference image is built at lines 312-315, after
    the client and before the [try]: when the SDK refuses the value, the
    exception leaves the body there and no call is issued. The mask
    reference of lines 317-323 is built from a mode string, a reference
    identifier and a dilation, none of which the SDK refuses. *)
Definition edit_image_body (model prompt edit_mode mask_mode : string)
    (reference_image_bytes : pyval) (number_of_images : Z) : M (list pyval) :=
  client <- lift (ImagenModelSetup_init config None None (Some model)) ;;
  reference_image <- lift (validate_reference_image env reference_image_bytes) ;;
  response <- call (edit_request client model prompt edit_mode mask_mode
                                 reference_image number_of_images) ;;
  lift (edited_uris response).

Definition edit_image (fuel : nat) (model prompt edit_mode mask_mode : string)
    (reference_image_bytes : pyval) (number_of_images : Z)
    (w : world) : option (result (list pyval) * world) :=
  retry_call retry_policy
    (edit_image_body model prompt edit_mode mask_mode
                     reference_image_bytes number_of_images)
    fuel 1 w.

End Operations.

(** ** Shapes of responses

    The objects of the SDK ([GenerateImagesResponse], [GeneratedImage],
    [Image]) declare their fields, so a field without a value is present
    and holds [None]. *)

Definition Image (gcs_uri image_bytes : pyval) : pyval :=
  PObj {[ "gcs_uri" := gcs_uri; "image_bytes" := image_bytes ]}.

Definition GeneratedImage (image rai_filtered_reason : pyval) : pyval :=
  PObj {[ "image" := image; "rai_filtered_reason" := rai_filtered_reason ]}.

Definition GenerateImagesResponse (generated_images : pyval) : pyval :=
  PObj {[ "generated_images" := generated_images ]}.

Definition PredictResponse (predictions : list (gmap string pyval)) : pyval :=
  PObj {[ "predictions" := PList (PDict <$> predictions) ]}.

(** *** Result entries

    An entry succeeded when it has an image object (the test of line 126);
    it failed otherwise.  A successful entry carries a URI, raw bytes, or
    both. *)

Definition succeeded (entry : pyval) : bool := attr_truthy entry "image".

Definition failed (entry : pyval) : bool := negb (succeeded entry).

Definition entry_image (entry : pyval) : option pyval :=
  match attr_lookup entry "image" with
  | Some image => if truthy image then Some image else None
  | None => None
  end.

Definition uri_of (entry : pyval) : option string :=
  match entry_image entry with
  | Some image =>
      match attr_lookup image "gcs_uri" with
      | Some (PStr u) => if truthy (PStr u) then Some u else None
      | _ => None
      end
  | None => None
  end.

Definition bytes_of (entry : pyval) : option (list byte) :=
  match entry_image entry with
  | Some image =>
      match attr_lookup image "image_bytes" with
      | Some (PBytes bs) => if truthy (PBytes bs) then Some bs else None
      | _ => None
      end
  | None => None
  end.

(** What normalization is to keep of a successful entry. *)
Definition payload_of (entry result : pyval) : Prop :=
  (exists u, uri_of entry = Some u /\ result = PStr u) \/
  (exists bs, bytes_of entry = Some bs /\ result = PBytes bs).

(** One result per successful entry, in the order of the entries. *)
Definition normalized (entries results : list pyval) : Prop :=
  Forall2 payload_of (List.filter succeeded entries) results.

(** *** Sample values *)

Definition png_magic : list byte := [x89; x50; x4e; x47].

Definition entry_with_uri (u : string) : pyval :=
  GeneratedImage (Image (PStr u) PNone) PNone.

Definition entry_with_bytes (bs : list byte) : pyval :=
  GeneratedImage (Image PNone (PBytes bs)) PNone.

Definition entry_filtered (reason : string) : pyval :=
  GeneratedImage PNone (PStr reason).

Definition sample_config : Default :=
  {| PROJECT_ID := Some "demo-project";
     LOCATION := Some "us-central1";
     MODEL_ID := Some "imagen-3.0-generate-002";
     INIT_VERTEX := true;
     IMAGE_BUCKET := "demo-bucket";
     IMAGEN_GENERATED_SUBFOLDER := "generated_images";
     IMAGEN_EDITED_SUBFOLDER := "edited_images";
     MODEL_IMAGEN4_FAST := "imagen-4.0-fast-generate-001";
     MODEL_IMAGEN_PRODUCT_RECONTEXT := "imagen-product-recontext-preview-06-30" |}.

(** The refusal of a reference image by the SDK, a [ValidationError] of
    pydantic (a subclass of [ValueError]). *)
Definition validation_error : exn :=
  Exn (OtherException "ValidationError")
      "reference_image: Input should be a valid dictionary or object to extract fields from".

(** Collaborators whose remote service gives the same outcome to every
    call; decoding takes the bytes of the string as they are, storage
    names the object after its folder and file; [None] and objects pass
    for a reference image, raw bytes and the other values do not. *)
Definition bytes_of_string (s : string) : list byte :=
  (fun a => Ascii.byte_of_ascii a) <$> String.list_ascii_of_string s.

Definition sample_outside (outcome : result pyval) : outside :=
  {| service := fun _ _ => outcome;
     validate_reference_image := fun v =>
       match v with
       | PNone | PObj _ => Ok v
       | _ => Raise validation_error
       end;
     b64decode := fun v =>
       match v with
       | PStr s => Ok (bytes_of_string s)
       | PBytes bs => Ok bs
       | _ => Raise (Exn TypeError "argument should be a bytes-like object or ASCII string")
       end;
     store_to_gcs := fun u => Ok ("gs://demo-bucket/" +:+ folder u +:+ "/" +:+ file_name u);
     uuid4 := fun n => "uuid-" +:+ pretty (N.of_nat n);
     random_prompt := "a model facing forward" |}.

(** A remote service that fails on the first [failures] calls with [e] and
    answers [response] afterwards. *)
Definition flaky_outside (failures : nat) (e : exn) (response : pyval) : outside :=
  {| service := fun n _ => if (n <? failures)%nat then Raise e else Ok response;
     validate_reference_image :=
       validate_reference_image (sample_outside (Ok response));
     b64decode := b64decode (sample_outside (Ok response));
     store_to_gcs := store_to_gcs (sample_outside (Ok response));
     uuid4 := uuid4 (sample_outside (Ok response));
     random_prompt := random_prompt (sample_outside (Ok response)) |}.

Example generated_uris_sample :
  generated_uris
    (GenerateImagesResponse
       (PList [entry_with_uri "gs://b/0.png"; entry_filtered "blocked";
               entry_with_uri "gs://b/2.png"]))
  = Ok [PStr "gs://b/0.png"; PStr "gs://b/2.png"].
Proof. vm_compute. reflexivity. Qed.

Example generated_uris_bytes_only :
  generated_uris (GenerateImagesResponse (PList [entry_with_bytes png_magic]))
  = Ok [PNone].
Proof. vm_compute. reflexivity. Qed.

(** ** Statements about the client factory *)

(** An identifier is absent when it is neither passed nor configured. *)
Definition identifier_absent (config : Default)
    (project_id location model_id : option string) : Prop :=
  (falsy_opt project_id = true /\ PROJECT_ID config = None) \/
  (falsy_opt location = true /\ LOCATION config = None) \/
  (falsy_opt model_id = true /\ MODEL_ID config = None).

(** Every argument that is not [None] is the identifier used. *)
Definition explicit_takes_precedence (config : Default)
    (project_id location model_id : option string) : Prop :=
  exists p l m,
    resolve_identifiers config project_id location model_id = (p, l, m) /\
    (project_id <> None -> p = project_id) /\
    (location <> None -> l = location) /\
    (model_id <> None -> m = model_id).

(** A non-empty argument is the identifier used; an omitted one and an
    empty one are replaced by the configured value. *)
Definition resolved_from (arg default resolved : option string) : Prop :=
  (forall s, arg = Some s -> s <> EmptyString -> resolved = Some s) /\
  (arg = None -> resolved = default) /\
  (arg = Some EmptyString -> resolved = default).

(** ** Statements about normalization *)

(** The entries normalization is specified for. *)
Definition uri_or_failure (entry : pyval) : Prop :=
  is_Some (uri_of entry) \/ failed entry = true.

(** ** Statements about the retrying wrapper *)

(** The exceptions the decorator retries on: the instances of [Exception]. *)
Definition retryable (e : exn) : bool := isinstance_Exception (exn_type e).

(** Up to three attempts, one second of sleep after the first and two
    after the second, whatever the exception: the wrapper as the
    specification words it. *)
Definition three_attempts_on_any_exception {A} (fn : M A) (w : world)
  : result A * world :=
  match fn w with
  | (Raise _, w1) =>
      match fn (slept 1 w1) with
      | (Raise _, w2) => fn (slept 2 w2)
      | outcome => outcome
      end
  | outcome => outcome
  end.

(** The same, an exception that is not an instance of [Exception] ending
    the attempts at once. *)
Definition three_attempts {A} (fn : M A) (w : world) : result A * world :=
  match fn w with
  | (Raise e1, w1) =>
      if retryable e1 then
        match fn (slept 1 w1) with
        | (Raise e2, w2) =>
            if retryable e2 then fn (slept 2 w2) else (Raise e2, w2)
        | outcome => outcome
        end
      else (Raise e1, w1)
  | outcome => outcome
  end.

(** ** Statements about empty results *)

(** The domain error of the single-image path (line 248). *)
Definition no_data : exn :=
  Exn ValueError "Image generation failed or returned no data.".


(** ** Statements about recontextualization *)

Definition base64_payload (prediction : gmap string pyval) : pyval :=
  default PNone (prediction !! "bytesBase64Encoded").

(** A prediction carries a payload when the test of line 277 holds. *)
Definition carries_base64 (prediction : gmap string pyval) : bool :=
  truthy (base64_payload prediction).

(** Decode the payload of each prediction and upload the bytes, in order,
    collecting the locations the storage collaborator returns. *)
Fixpoint upload_each (env : outside) (carrying : list (gmap string pyval))
  : M (list string) :=
  match carrying with
  | [] => ret []
  | prediction :: rest =>
      (mask_bytes <- lift (b64decode env (base64_payload prediction)) ;;
       u <- fresh_uuid env ;;
       gcs_uri <- store env (recontext_upload u mask_bytes) ;;
       uris <- upload_each env rest ;;
       ret (gcs_uri :: uris))%M
  end.

(** [gcs_uri] is the location of the decoded payload of [prediction],
    uploaded under the [k]-th UUID. *)
Definition uploaded_as (env : outside) (k : nat) (prediction : gmap string pyval)
    (gcs_uri : string) : Prop :=
  exists mask_bytes,
    b64decode env (base64_payload prediction) = Ok mask_bytes /\
    store_to_gcs env (recontext_upload (uuid4 env k) mask_bytes) = Ok gcs_uri.

Fixpoint uploaded_in_order (env : outside) (k : nat)
    (carrying : list (gmap string pyval)) (uris : list string) : Prop :=
  match carrying, uris with
  | [], [] => True
  | prediction :: carrying', gcs_uri :: uris' =>
      uploaded_as env k prediction gcs_uri /\
      uploaded_in_order env (S k) carrying' uris'
  | _, _ => False
  end.

Definition recontext_result (u : upload) : Prop :=
  folder u = "recontext_results" /\ mime_type u = "image/png".

(** ** Statements about whole operations *)

(** The value normalization keeps of an entry, whatever its shape: the
    [gcs_uri] attribute of its image, when both attributes exist. *)
Definition image_gcs_uri (entry : pyval) : option pyval :=
  match attr_lookup entry "image" with
  | Some image => attr_lookup image "gcs_uri"
  | None => None
  end.

(** An entry as the SDK builds it: a [GeneratedImage] whose image is
    [None] or an [Image]. *)
Definition sdk_entry (entry : pyval) : Prop :=
  exists image reason,
    entry = GeneratedImage image reason /\
    (image = PNone \/ exists gcs_uri image_bytes, image = Image gcs_uri image_bytes).

(** The world after the three attempts of a failing retried call. *)
Definition after_three_calls (request : api_call) (w : world) : world :=
  called request (slept 2 (called request (slept 1 (called request w)))).

(** A configuration without project, as when the environment does not set
    it. *)
Definition sample_config_without_project : Default :=
  {| PROJECT_ID := None;
     LOCATION := LOCATION sample_config;
     MODEL_ID := MODEL_ID sample_config;
     INIT_VERTEX := INIT_VERTEX sample_config;
     IMAGE_BUCKET := IMAGE_BUCKET sample_config;
     IMAGEN_GENERATED_SUBFOLDER := IMAGEN_GENERATED_SUBFOLDER sample_config;
     IMAGEN_EDITED_SUBFOLDER := IMAGEN_EDITED_SUBFOLDER sample_config;
     MODEL_IMAGEN4_FAST := MODEL_IMAGEN4_FAST sample_config;
     MODEL_IMAGEN_PRODUCT_RECONTEXT := MODEL_IMAGEN_PRODUCT_RECONTEXT sample_config |}.

(** What [k] attempts of a retried call leave in the world: [k] times the
    same request, a sleep of one second and then of two between them, no
    upload and no UUID. *)
Definition attempts_made (k : nat) (request : api_call) (w w' : world) : Prop :=
  api_calls w' = (api_calls w ++ replicate k request)%list /\
  sleeps w' = (sleeps w ++ take (k - 1) [1; 2])%list /\
  uploads w' = uploads w /\
  uuids w' = uuids w.

(** The error of the client factory (line 67). *)
Definition setup_failure : exn :=
  Exn ValueError "All parameters must be set.".

(** More sample values: the client built from [sample_config], and a
    response with a URI, a filtered entry and an image held as bytes. *)
Definition sample_client : client :=
  {| client_vertexai := true;
     client_project := Some "demo-project";
     client_location := Some "us-central1" |}.

Definition sample_entries : list pyval :=
  [entry_with_uri "gs://b/0.png"; entry_filtered "blocked"; entry_with_bytes png_magic].

Definition server_error : exn := Exn (OtherException "ServerError") "503".

(** The name under which the result drawn with the [k]-th UUID is stored
    (line 283). *)
Definition recontext_file_name (env : outside) (k : nat) : string :=
  "recontext_result_" +:+ uuid4 env k +:+ ".png".

(** A reference image as [edit_image] needs it: an [Image] object that
    holds the bytes. *)
Definition sample_reference : pyval := Image PNone (PBytes png_magic).

(** A filtered prediction as the SDK returns it when the reason is asked
    for: the image object is there and holds nothing, the reason is set. *)
Definition entry_filtered_empty_image (reason : string) : pyval :=
  GeneratedImage (Image PNone PNone) (PStr reason).

(** The upload of the decoded payload of [prediction] under the [k]-th
    UUID, spelled out: [u] is the object handed to the storage
    collaborator and [gcs_uri] the location it returned. *)
Definition stores_decoded (env : outside) (k : nat) (prediction : gmap string pyval)
    (u : upload) (gcs_uri : string) : Prop :=
  exists mask_bytes,
    b64decode env (base64_payload prediction) = Ok mask_bytes /\
    u = {| folder := "recontext_results";
           file_name := "recontext_result_" +:+ uuid4 env k +:+ ".png";
           mime_type := "image/png";
           contents := mask_bytes;
           decode := false |} /\
    store_to_gcs env u = Ok gcs_uri.

Fixpoint stored_in_order (env : outside) (k : nat)
    (carrying : list (gmap string pyval)) (new : list upload) (uris : list string)
  : Prop :=
  match carrying, new, uris with
  | [], [], [] => True
  | prediction :: carrying', u :: new', gcs_uri :: uris' =>
      stores_decoded env k prediction u gcs_uri /\
      stored_in_order env (S k) carrying' new' uris'
  | _, _, _ => False
  end.

(** * Properties *)

(** ** Values *)

Lemma falsy_has_no_attr (v : pyval) (name : string) :
  truthy v = false -> attr_lookup v name = None.
Proof. destruct v; simpl; intros H; try reflexivity. discriminate H. Qed.

Lemma hasattr_lookup (v : pyval) (name : string) (x : pyval) :
  attr_lookup v name = Some x -> hasattr v name = true /\ getattr v name = Ok x.
Proof. unfold hasattr, getattr. intros ->. split; reflexivity. Qed.

Lemma hasattr_None (v : pyval) (name : string) :
  attr_lookup v name = None -> hasattr v name = false.
Proof. unfold hasattr. intros ->. reflexivity. Qed.

Lemma truthy_PList (items : list pyval) :
  truthy (PList items) = false <-> items = [].
Proof. destruct items; simpl; split; congruence. Qed.

(** ** The client factory *)

Lemma or_default_None (arg default : option string) :
  or_default arg default = None <-> falsy_opt arg = true /\ default = None.
Proof.
  unfold or_default. destruct (falsy_opt arg) eqn:E.
  - split; [intros ->; split; reflexivity | intros [_ H]; exact H].
  - split; [| intros [H _]; discriminate H].
    intros ->. simpl in E. discriminate E.
Qed.

Lemma or_default_given (s : string) (default : option string) :
  s <> EmptyString -> or_default (Some s) default = Some s.
Proof.
  intros Hs. unfold or_default, falsy_opt.
  destruct (String.eqb_spec s EmptyString) as [E | _]; [contradiction | reflexivity].
Qed.

Lemma or_default_omitted (arg default : option string) :
  arg = None \/ arg = Some EmptyString -> or_default arg default = default.
Proof. intros [-> | ->]; reflexivity. Qed.

Lemma init_outcome (config : Default) (project_id location model_id : option string) :
  ImagenModelSetup_init config project_id location model_id =
  if existsb is_None
       [or_default project_id (PROJECT_ID config);
        or_default location (LOCATION config);
        or_default model_id (MODEL_ID config)]
  then Raise (Exn ValueError "All parameters must be set.")
  else Ok {| client_vertexai := INIT_VERTEX config;
             client_project := or_default project_id (PROJECT_ID config);
             client_location := or_default location (LOCATION config) |}.
Proof. reflexivity. Qed.

Lemma existsb_is_None3 (a b c : option string) :
  existsb is_None [a; b; c] = true <-> a = None \/ b = None \/ c = None.
Proof.
  destruct a, b, c; simpl; split; intros H; try reflexivity; try discriminate H;
    try (left; reflexivity); try (right; left; reflexivity);
    try (right; right; reflexivity).
  destruct H as [H | [H | H]]; discriminate H.
Qed.


(** C8, as stated, fails: an empty string is not [None], yet it is replaced
    by the configured project. *)
Lemma empty_project_id_replaced_by_default :
  ImagenModelSetup_init sample_config (Some EmptyString) (Some "europe-west4") (Some "m")
  = Ok {| client_vertexai := true;
          client_project := Some "demo-project";
          client_location := Some "europe-west4" |} /\
  ~ explicit_takes_precedence sample_config
      (Some EmptyString) (Some "europe-west4") (Some "m").
Proof.
  split; [reflexivity |].
  intros (p & l & m & Hr & Hp & _).
  cbv in Hr. injection Hr as <- <- <-.
  specialize (Hp ltac:(discriminate)). discriminate Hp.
Qed.

(** C8, amended. Each of the three identifiers is the argument when the
    argument is a non-empty string and the configured value when the
    argument is omitted or empty; the absence check is made on the
    identifiers so resolved, and the handle is built from them. *)
Theorem init_resolves_before_check
    (config : Default) (project_id location model_id : option string) :
  exists p l m,
    resolve_identifiers config project_id location model_id = (p, l, m) /\
    resolved_from project_id (PROJECT_ID config) p /\
    resolved_from location (LOCATION config) l /\
    resolved_from model_id (MODEL_ID config) m /\
    (ImagenModelSetup_init config project_id location model_id
       = Raise (Exn ValueError "All parameters must be set.")
     <-> p = None \/ l = None \/ m = None) /\
    (forall c, ImagenModelSetup_init config project_id location model_id = Ok c ->
               client_project c = p /\ client_location c = l).
Proof.
  eexists _, _, _. split; [reflexivity |].
  assert (Hres : forall arg default, resolved_from arg default (or_default arg default)).
  { intros arg default. split; [| split].
    - intros s -> Hs. apply or_default_given, Hs.
    - intros ->. reflexivity.
    - intros ->. reflexivity. }
  repeat (split; [apply Hres |]).
  rewrite init_outcome, <- existsb_is_None3.
  destruct (existsb is_None _); split.
  - split; reflexivity.
  - intros c H. discriminate H.
  - split; intros H; discriminate H.
  - intros c H. injection H as <-. split; reflexivity.
Qed.

(** ** Response normalization *)

Lemma uri_of_Some (entry : pyval) (u : string) :
  uri_of entry = Some u ->
  exists image,
    attr_lookup entry "image" = Some image /\ truthy image = true /\
    attr_lookup image "gcs_uri" = Some (PStr u).
Proof.
  unfold uri_of, entry_image.
  destruct (attr_lookup entry "image") as [image |] eqn:Hi; [| discriminate].
  destruct (truthy image) eqn:Ht; [| discriminate].
  destruct (attr_lookup image "gcs_uri") as [[ | | | s | | | | ] |] eqn:Hu;
    try discriminate.
  destruct (truthy (PStr s)); [| discriminate].
  intros [= ->]. exists image. auto.
Qed.

Lemma uri_of_succeeded (entry : pyval) (u : string) :
  uri_of entry = Some u -> succeeded entry = true.
Proof.
  intros (image & Hi & Ht & _)%uri_of_Some.
  unfold succeeded, attr_truthy. rewrite Hi. exact Ht.
Qed.

Lemma failed_uri_of (entry : pyval) : failed entry = true -> uri_of entry = None.
Proof.
  unfold failed, succeeded, attr_truthy, uri_of, entry_image.
  destruct (attr_lookup entry "image") as [image |]; [| reflexivity].
  destruct (truthy image); [discriminate | reflexivity].
Qed.

Lemma gcs_uris_keeps_uri (entry : pyval) (u : string) (rest : list pyval) :
  uri_of entry = Some u ->
  gcs_uris (entry :: rest) = (uris <-! gcs_uris rest ;; Ok (PStr u :: uris)).
Proof.
  intros (image & Hi & _ & Hu)%uri_of_Some.
  destruct (hasattr_lookup _ _ _ Hi) as [Hh Hg].
  destruct (hasattr_lookup _ _ _ Hu) as [Hh' Hg'].
  simpl. rewrite Hh, Hg. simpl. rewrite Hh', Hg'. reflexivity.
Qed.

Lemma gcs_uris_drops_failed (entry : pyval) (rest : list pyval) :
  failed entry = true -> gcs_uris (entry :: rest) = gcs_uris rest.
Proof.
  unfold failed, succeeded, attr_truthy. intros Hf. simpl.
  destruct (attr_lookup entry "image") as [image |] eqn:Hi.
  - destruct (hasattr_lookup _ _ _ Hi) as [-> ->]. simpl.
    rewrite (hasattr_None image "gcs_uri"); [reflexivity |].
    apply falsy_has_no_attr. destruct (truthy image); [discriminate Hf | reflexivity].
  - rewrite (hasattr_None _ _ Hi). reflexivity.
Qed.

Lemma gcs_uris_uri_or_failure (entries : list pyval) :
  Forall uri_or_failure entries ->
  gcs_uris entries = Ok (PStr <$> omap uri_of entries).
Proof.
  induction 1 as [| entry rest [[u Hu] | Hf] _ IH].
  - reflexivity.
  - rewrite (gcs_uris_keeps_uri _ u), IH by exact Hu.
    simpl. rewrite Hu. reflexivity.
  - rewrite gcs_uris_drops_failed, IH by exact Hf.
    simpl. rewrite (failed_uri_of _ Hf). reflexivity.
Qed.

Lemma normalized_uri_or_failure (entries : list pyval) :
  Forall uri_or_failure entries ->
  normalized entries (PStr <$> omap uri_of entries).
Proof.
  unfold normalized.
  induction 1 as [| entry rest [[u Hu] | Hf] _ IH]; simpl.
  - constructor.
  - rewrite (uri_of_succeeded _ _ Hu), Hu. simpl.
    constructor; [| exact IH]. left. exists u. split; [exact Hu | reflexivity].
  - rewrite (failed_uri_of _ Hf).
    unfold failed in Hf. destruct (succeeded entry); [discriminate Hf | exact IH].
Qed.

Lemma edited_uris_of_list (attrs : gmap string pyval) (entries : list pyval) :
  attrs !! "generated_images" = Some (PList entries) ->
  edited_uris (PObj attrs) = gcs_uris entries.
Proof.
  intros Hgi. unfold edited_uris, attr_truthy, getattr. simpl. rewrite Hgi.
  destruct entries as [| entry rest]; simpl.
  - destruct (hasattr _ _); reflexivity.
  - reflexivity.
Qed.

Lemma generated_uris_of_list (attrs : gmap string pyval) (entries : list pyval) :
  attrs !! "generated_images" = Some (PList entries) ->
  generated_uris (PObj attrs) = gcs_uris entries.
Proof.
  intros Hgi. unfold generated_uris, getattr. simpl. rewrite Hgi. reflexivity.
Qed.

(** C1, as stated, fails: an entry that succeeded with raw bytes and no URI
    is one successful entry, and what normalization returns for it is
    [None], neither its bytes nor a URI. *)
Lemma bytes_only_entry_not_normalized :
  let entries := [entry_with_bytes png_magic] in
  generated_uris (GenerateImagesResponse (PList entries)) = Ok [PNone] /\
  edited_uris (GenerateImagesResponse (PList entries)) = Ok [PNone] /\
  ~ (exists results,
       generated_uris (GenerateImagesResponse (PList entries)) = Ok results /\
       normalized entries results).
Proof.
  split; [vm_compute; reflexivity |].
  split; [vm_compute; reflexivity |].
  intros (results & Hr & Hn).
  assert (results = [PNone]) as -> by (vm_compute in Hr; congruence).
  unfold normalized in Hn.
  assert (Hs : List.filter succeeded [entry_with_bytes png_magic]
               = [entry_with_bytes png_magic]) by (vm_compute; reflexivity).
  rewrite Hs in Hn. inversion Hn as [| ? ? ? ? Hp _]; subst.
  destruct Hp as [(u & _ & Hu) | (bs & _ & Hb)]; discriminate.
Qed.

(** C1, amended. When every entry of the response is either a success that
    carries a URI or a failure, the URI extraction of
    [generate_images_from_prompt], [generate_virtual_models] and
    [edit_image] returns the URIs of the successful entries, in the order
    of the entries, and nothing for the failed ones: as many results as
    there are successful entries. *)
Theorem normalization_keeps_uris_of_successes
    (attrs : gmap string pyval) (entries : list pyval) :
  attrs !! "generated_images" = Some (PList entries) ->
  Forall uri_or_failure entries ->
  generated_uris (PObj attrs) = Ok (PStr <$> omap uri_of entries) /\
  edited_uris (PObj attrs) = Ok (PStr <$> omap uri_of entries) /\
  normalized entries (PStr <$> omap uri_of entries) /\
  length (omap uri_of entries) = length (List.filter succeeded entries).
Proof.
  intros Hgi Hall.
  rewrite (generated_uris_of_list _ _ Hgi), (edited_uris_of_list _ _ Hgi).
  rewrite (gcs_uris_uri_or_failure _ Hall).
  pose proof (normalized_uri_or_failure _ Hall) as Hn.
  repeat split; try exact Hn.
  apply Forall2_length in Hn. rewrite length_fmap in Hn. symmetry. exact Hn.
Qed.

Lemma normalization_keeps_uris_of_successes_witness :
  generated_uris
    (GenerateImagesResponse
       (PList [entry_with_uri "gs://b/0.png"; entry_filtered "blocked";
               entry_with_uri "gs://b/2.png"]))
  = Ok [PStr "gs://b/0.png"; PStr "gs://b/2.png"].
Proof.
  pose proof (normalization_keeps_uris_of_successes
                {[ "generated_images" :=
                     PList [entry_with_uri "gs://b/0.png"; entry_filtered "blocked";
                            entry_with_uri "gs://b/2.png"] ]}
                [entry_with_uri "gs://b/0.png"; entry_filtered "blocked";
                 entry_with_uri "gs://b/2.png"]) as H.
  destruct H as [H _].
  - reflexivity.
  - constructor; [left; eexists; vm_compute; reflexivity |].
    constructor; [right; vm_compute; reflexivity |].
    constructor; [left; eexists; vm_compute; reflexivity |].
    constructor.
  - exact H.
Defined.

(** C5: the code departs from the claim. Every entry of the response is a
    failure: a filtered prediction, with its reason and an image object
    that holds neither a URI nor bytes. Normalization returns one [None]
    per entry where the claim has the empty sequence; the list is
    annotated as a list of strings and the filter of the comprehension
    tests for the attribute, which an image object always has. *)
Theorem filtered_entries_normalize_to_None :
  let entries :=
    [entry_filtered_empty_image "blocked"; entry_filtered_empty_image "unsafe"] in
  Forall (fun entry => uri_of entry = None /\ bytes_of entry = None /\
                       attr_lookup entry "rai_filtered_reason" <> Some PNone) entries /\
  Forall sdk_entry entries /\
  generated_uris (GenerateImagesResponse (PList entries)) = Ok [PNone; PNone] /\
  edited_uris (GenerateImagesResponse (PList entries)) = Ok [PNone; PNone] /\
  generated_uris (GenerateImagesResponse (PList entries)) <> Ok [].
Proof.
  split; [repeat constructor; vm_compute; discriminate |].
  split.
  - repeat constructor;
      (eexists _, _; split; [reflexivity |]; right; eexists _, _; reflexivity).
  - split; [vm_compute; reflexivity |].
    split; [vm_compute; reflexivity |].
    vm_compute. discriminate.
Qed.

(** X13. A response whose entry sequence is empty, or whose entries all lack
    an image object (no image attribute, or a falsy one such as [None]),
    normalizes to the empty sequence, and no exception is raised: this
    holds of the extraction of [generate_images_from_prompt] and
    [generate_virtual_models] and of the one of [edit_image]. *)
Theorem all_failed_normalizes_to_empty
    (attrs : gmap string pyval) (entries : list pyval) :
  attrs !! "generated_images" = Some (PList entries) ->
  Forall (fun entry => failed entry = true) entries ->
  generated_uris (PObj attrs) = Ok [] /\ edited_uris (PObj attrs) = Ok [].
Proof.
  intros Hgi Hall.
  rewrite (generated_uris_of_list _ _ Hgi), (edited_uris_of_list _ _ Hgi).
  assert (gcs_uris entries = Ok []) as ->; [| split; reflexivity].
  clear Hgi. induction Hall as [| entry rest Hf _ IH]; [reflexivity |].
  rewrite gcs_uris_drops_failed by exact Hf. exact IH.
Qed.

Lemma all_failed_normalizes_to_empty_witness :
  generated_uris
    (GenerateImagesResponse (PList [entry_filtered "blocked"; entry_filtered "unsafe"]))
  = Ok [] /\
  edited_uris (GenerateImagesResponse (PList [])) = Ok [].
Proof.
  split.
  - apply (all_failed_normalizes_to_empty
             {[ "generated_images" :=
                  PList [entry_filtered "blocked"; entry_filtered "unsafe"] ]}
             [entry_filtered "blocked"; entry_filtered "unsafe"]).
    + reflexivity.
    + repeat constructor.
  - apply (all_failed_normalizes_to_empty {[ "generated_images" := PList [] ]} []).
    + reflexivity.
    + constructor.
Defined.

(** ** The retrying wrapper *)

Lemma wait_exponential_schedule (attempt_number : nat) :
  (1 <= attempt_number)%nat ->
  wait retry_policy attempt_number = Z.min (2 ^ (Z.of_nat attempt_number - 1)) 10.
Proof.
  intros Hn. simpl. unfold wait_exponential.
  assert (0 < 2 ^ (Z.of_nat attempt_number - 1)) by (apply Z.pow_pos_nonneg; lia).
  lia.
Qed.

Lemma retry_call_three_attempts {A} (fn : M A) (fuel : nat) (w : world) :
  (3 <= fuel)%nat ->
  retry_call retry_policy fn fuel 1 w = Some (three_attempts fn w).
Proof.
  intros Hfuel.
  destruct fuel as [| [| [| fuel]]]; try lia. clear Hfuel.
  unfold three_attempts, retryable. simpl.
  unfold retry_if_exception_type.
  change (wait_exponential 1 1 10 1) with 1.
  change (wait_exponential 1 1 10 2) with 2.
  destruct (fn w) as [[a1 | e1] w1]; [reflexivity |].
  destruct (isinstance_Exception (exn_type e1)); [| reflexivity]. simpl.
  destruct (fn _) as [[a2 | e2] w2]; [reflexivity |].
  destruct (isinstance_Exception (exn_type e2)); [| reflexivity]. simpl.
  destruct (fn _) as [[a3 | e3] w3]; [reflexivity |].
  destruct (isinstance_Exception (exn_type e3)); reflexivity.
Qed.

Lemma three_attempts_exhausted {A} (fn : M A) (w w1 w2 w3 : world) (e1 e2 e3 : exn) :
  fn w = (Raise e1, w1) -> retryable e1 = true ->
  fn (slept 1 w1) = (Raise e2, w2) -> retryable e2 = true ->
  fn (slept 2 w2) = (Raise e3, w3) ->
  three_attempts fn w = (Raise e3, w3).
Proof.
  intros H1 R1 H2 R2 H3. unfold three_attempts.
  rewrite H1, R1, H2, R2, H3. reflexivity.
Qed.

Lemma three_attempts_third_succeeds {A} (fn : M A) (w w1 w2 w3 : world)
    (e1 e2 : exn) (a : A) :
  fn w = (Raise e1, w1) -> retryable e1 = true ->
  fn (slept 1 w1) = (Raise e2, w2) -> retryable e2 = true ->
  fn (slept 2 w2) = (Ok a, w3) ->
  three_attempts fn w = (Ok a, w3).
Proof.
  intros H1 R1 H2 R2 H3. unfold three_attempts.
  rewrite H1, R1, H2, R2, H3. reflexivity.
Qed.

(** C2, as stated, fails: the first attempt is interrupted from the
    keyboard, the service would answer the second one, and the wrapper
    raises the interrupt without a second attempt. *)
Lemma keyboard_interrupt_not_retried :
  let response := GenerateImagesResponse (PList [entry_with_uri "gs://b/0.png"]) in
  let env := flaky_outside 1 (Exn KeyboardInterrupt EmptyString) response in
  let body := generate_images_body sample_config env "m" "p" 1 "1:1" EmptyString in
  (three_attempts_on_any_exception body initial_world).1 = Ok response /\
  (exists w,
     generate_images sample_config env 3 "m" "p" 1 "1:1" EmptyString initial_world
       = Some (Raise (Exn KeyboardInterrupt EmptyString), w) /\
     length (api_calls w) = 1%nat /\ sleeps w = []) /\
  generate_images sample_config env 3 "m" "p" 1 "1:1" EmptyString initial_world
    <> Some (three_attempts_on_any_exception body initial_world).
Proof.
  split; [vm_compute; reflexivity |].
  split.
  - eexists. split; [vm_compute; reflexivity |]. split; reflexivity.
  - vm_compute. discriminate.
Qed.

(** C2, amended. The wrapper around [generate_images] and [edit_image]
    retries on every raised exception that is an instance of [Exception],
    whatever its type, for at most three attempts in all; it sleeps one
    second after the first failure and two after the second, the wait after
    attempt [n] being [2 ^ (n - 1)] seconds capped at ten; when all three
    attempts fail the exception of the third attempt is raised as it is,
    type and message. An exception that is not an instance of [Exception]
    is raised at once. *)
Theorem retry_three_attempts_on_Exception
    (config : Default) (env : outside) (fuel : nat) (w : world)
    (model prompt aspect_ratio negative_prompt edit_mode mask_mode : string)
    (reference_image_bytes : pyval) (number_of_images : Z) :
  (3 <= fuel)%nat ->
  let generate :=
    generate_images_body config env model prompt number_of_images
                         aspect_ratio negative_prompt in
  let edit :=
    edit_image_body config env model prompt edit_mode mask_mode
                    reference_image_bytes number_of_images in
  generate_images config env fuel model prompt number_of_images
                  aspect_ratio negative_prompt w
    = Some (three_attempts generate w) /\
  edit_image config env fuel model prompt edit_mode mask_mode
             reference_image_bytes number_of_images w
    = Some (three_attempts edit w) /\
  (forall n, (1 <= n)%nat ->
             wait retry_policy n = Z.min (2 ^ (Z.of_nat n - 1)) 10) /\
  (forall A (fn : M A) w0 w1 w2 w3 e1 e2 e3,
      fn w0 = (Raise e1, w1) -> retryable e1 = true ->
      fn (slept 1 w1) = (Raise e2, w2) -> retryable e2 = true ->
      fn (slept 2 w2) = (Raise e3, w3) ->
      retry_call retry_policy fn fuel 1 w0 = Some (Raise e3, w3)) /\
  (forall A (fn : M A) w0 w1 e1,
      fn w0 = (Raise e1, w1) -> retryable e1 = false ->
      retry_call retry_policy fn fuel 1 w0 = Some (Raise e1, w1)).
Proof.
  intros Hfuel generate edit.
  split; [apply retry_call_three_attempts, Hfuel |].
  split; [apply retry_call_three_attempts, Hfuel |].
  split; [apply wait_exponential_schedule |].
  split.
  - intros A fn w0 w1 w2 w3 e1 e2 e3 H1 R1 H2 R2 H3.
    rewrite retry_call_three_attempts by exact Hfuel.
    f_equal. eapply three_attempts_exhausted; eassumption.
  - intros A fn w0 w1 e1 H1 R1.
    rewrite retry_call_three_attempts by exact Hfuel.
    unfold three_attempts. rewrite H1, R1. reflexivity.
Qed.

Lemma retry_three_attempts_on_Exception_witness :
  let response := GenerateImagesResponse (PList [entry_with_uri "gs://b/0.png"]) in
  let env := flaky_outside 3 (Exn (OtherException "ServerError") "503") response in
  exists w,
    generate_images sample_config env 3 "m" "p" 1 "1:1" EmptyString initial_world
      = Some (Raise (Exn (OtherException "ServerError") "503"), w) /\
    length (api_calls w) = 3%nat /\ sleeps w = [1; 2].
Proof.
  intros response env.
  destruct (retry_three_attempts_on_Exception sample_config env 3 initial_world
              "m" "p" "1:1" EmptyString "EDIT_MODE_INPAINT_INSERTION"
              "MASK_MODE_FOREGROUND" (PBytes png_magic) 1 ltac:(lia)) as [H _].
  rewrite H. eexists. split; [vm_compute; reflexivity |].
  split; reflexivity.
Defined.

(** ** One successful remote call *)

Section Runs.

Variable config : Default.
Variable env : outside.

Lemma retry_call_first_success {A} (r : retrying) (fn : M A) (fuel : nat)
    (w w1 : world) (a : A) :
  fn w = (Ok a, w1) -> retry_call r fn (S fuel) 1 w = Some (Ok a, w1).
Proof. intros H. simpl. rewrite H. reflexivity. Qed.

Lemma generate_image_for_vto_run (prompt : string) (w : world) (c : client)
    (response : pyval) :
  ImagenModelSetup_init config None None (Some (MODEL_IMAGEN4_FAST config)) = Ok c ->
  service env (length (api_calls w)) (vto_request config env c) = Ok response ->
  generate_image_for_vto config env prompt w
  = (first_image_bytes response, called (vto_request config env c) w).
Proof.
  intros Hc Hs. unfold generate_image_for_vto, bind, lift, call.
  rewrite Hc, Hs. reflexivity.
Qed.

Lemma generate_images_run (fuel : nat) (model prompt : string) (number_of_images : Z)
    (aspect_ratio negative_prompt : string) (w : world) (c : client)
    (response : pyval) :
  let request := generate_request config c model prompt number_of_images
                                  aspect_ratio negative_prompt in
  ImagenModelSetup_init config None None (Some model) = Ok c ->
  service env (length (api_calls w)) request = Ok response ->
  log_response response = Ok tt ->
  generate_images config env (S fuel) model prompt number_of_images
                  aspect_ratio negative_prompt w
  = Some (Ok response, called request w).
Proof.
  intros request Hc Hs Hl. apply retry_call_first_success.
  unfold generate_images_body, bind, lift, call, ret.
  rewrite Hc. fold request. rewrite Hs, Hl. reflexivity.
Qed.

Lemma edit_image_run (fuel : nat) (model prompt edit_mode mask_mode : string)
    (reference_image_bytes reference_image : pyval) (number_of_images : Z)
    (w : world) (c : client) (response : pyval) (uris : list pyval) :
  let request := edit_request config c model prompt edit_mode mask_mode
                              reference_image number_of_images in
  ImagenModelSetup_init config None None (Some model) = Ok c ->
  validate_reference_image env reference_image_bytes = Ok reference_image ->
  service env (length (api_calls w)) request = Ok response ->
  edited_uris response = Ok uris ->
  edit_image config env (S fuel) model prompt edit_mode mask_mode
             reference_image_bytes number_of_images w
  = Some (Ok uris, called request w).
Proof.
  intros request Hc Hv Hs Hu. apply retry_call_first_success.
  unfold edit_image_body, bind, lift, call.
  rewrite Hc, Hv. fold request. rewrite Hs, Hu. reflexivity.
Qed.

Lemma log_response_no_images (response : pyval) :
  attr_truthy response "generated_images" = false -> log_response response = Ok tt.
Proof.
  intros H. unfold log_response. rewrite H, andb_false_r. reflexivity.
Qed.

Lemma edited_uris_no_images (response : pyval) :
  attr_truthy response "generated_images" = false -> edited_uris response = Ok [].
Proof.
  intros H. unfold edited_uris. rewrite H, andb_false_r.
  destruct (truthy response && hasattr response "error"); reflexivity.
Qed.

End Runs.

(** ** The single-image path *)

Lemma first_image_bytes_no_images (attrs : gmap string pyval) (generated_images : pyval) :
  attrs !! "generated_images" = Some generated_images ->
  truthy generated_images = false ->
  first_image_bytes (PObj attrs) = Raise no_data.
Proof.
  intros Hgi Ht. unfold first_image_bytes, getattr. simpl. rewrite Hgi. simpl.
  rewrite Ht. reflexivity.
Qed.

Lemma first_image_bytes_of_list (attrs : gmap string pyval)
    (first : pyval) (rest : list pyval) :
  attrs !! "generated_images" = Some (PList (first :: rest)) ->
  first_image_bytes (PObj attrs) =
  (image <-! getattr first "image" ;;
   image_bytes <-! getattr image "image_bytes" ;;
   if truthy image_bytes then Ok image_bytes else Raise no_data).
Proof.
  intros Hgi. unfold first_image_bytes, getattr at 1. simpl. rewrite Hgi. reflexivity.
Qed.

Lemma first_image_bytes_returns (attrs : gmap string pyval)
    (first : pyval) (rest : list pyval) (bs : list byte) :
  attrs !! "generated_images" = Some (PList (first :: rest)) ->
  bytes_of first = Some bs ->
  first_image_bytes (PObj attrs) = Ok (PBytes bs).
Proof.
  intros Hgi Hb. rewrite (first_image_bytes_of_list _ _ _ Hgi).
  unfold bytes_of, entry_image in Hb.
  destruct (attr_lookup first "image") as [image |] eqn:Hi; [| discriminate].
  destruct (truthy image); [| discriminate].
  destruct (attr_lookup image "image_bytes") as [[ | | | | bs' | | | ] |] eqn:Hib;
    try discriminate.
  destruct (truthy (PBytes bs')) eqn:Ht; [| discriminate].
  injection Hb as ->.
  unfold getattr. rewrite Hi. cbn [result_bind]. rewrite Hib. cbn [result_bind].
  rewrite Ht. reflexivity.
Qed.

Lemma vto_requests_one_image (config : Default) (env : outside) (c : client) :
  exists model prompt request_config,
    vto_request config env c = models_generate_images c model prompt request_config /\
    number_of_images request_config = 1.
Proof. eexists _, _, _. split; reflexivity. Qed.

Lemma no_data_message :
  exn_msg no_data <> EmptyString /\
  exn_msg no_data = "Image " +:+ "generation failed or returned no data" +:+ ".".
Proof. split; [discriminate | reflexivity]. Qed.

(** C3: the code departs from the claim. The response holds one entry, a
    failed one whose image object is [None]; no successful entry, hence no
    image bytes. The single-image path raises an [AttributeError] from the
    access to [image_bytes], where the claim has the domain error. *)
Theorem vto_failed_entry_raises_AttributeError :
  let entries := [entry_filtered "blocked"] in
  let env := sample_outside (Ok (GenerateImagesResponse (PList entries))) in
  List.filter succeeded entries = [] /\
  (generate_image_for_vto sample_config env "a model" initial_world).1
    = Raise (Exn AttributeError "image_bytes") /\
  (generate_image_for_vto sample_config env "a model" initial_world).1
    <> Raise no_data.
Proof.
  split; [vm_compute; reflexivity |].
  split; [vm_compute; reflexivity |].
  vm_compute. discriminate.
Qed.

(** C10. [generate_image_for_vto] does not turn every response into bytes or
    the domain error: when the list of generated images is not empty and
    the image object of its first entry is [None], the access to the image
    bytes raises an [AttributeError]; and the domain [ValueError] is raised
    exactly when the list is empty or the bytes of the first image are
    falsy. *)
Theorem vto_domain_error_only_when_empty_or_no_bytes
    (config : Default) (env : outside) (prompt : string) (w : world)
    (c : client) (attrs : gmap string pyval) (entries : list pyval) :
  ImagenModelSetup_init config None None (Some (MODEL_IMAGEN4_FAST config)) = Ok c ->
  service env (length (api_calls w)) (vto_request config env c) = Ok (PObj attrs) ->
  attrs !! "generated_images" = Some (PList entries) ->
  let outcome := (generate_image_for_vto config env prompt w).1 in
  (forall first rest,
      entries = first :: rest -> attr_lookup first "image" = Some PNone ->
      outcome = Raise (Exn AttributeError "image_bytes")) /\
  (outcome = Raise no_data <->
   entries = [] \/
   exists first rest image image_bytes,
     entries = first :: rest /\
     attr_lookup first "image" = Some image /\
     attr_lookup image "image_bytes" = Some image_bytes /\
     truthy image_bytes = false).
Proof.
  intros Hc Hs Hgi outcome. subst outcome.
  rewrite (generate_image_for_vto_run _ _ _ _ _ _ Hc Hs). simpl.
  split.
  - intros first rest -> Hi.
    rewrite (first_image_bytes_of_list _ _ _ Hgi).
    unfold getattr. rewrite Hi. reflexivity.
  - destruct entries as [| first rest].
    + rewrite (first_image_bytes_no_images _ _ Hgi) by reflexivity.
      split; [intros _; left; reflexivity | reflexivity].
    + rewrite (first_image_bytes_of_list _ _ _ Hgi). unfold getattr.
      destruct (attr_lookup first "image") as [image |] eqn:Hi; simpl.
      * destruct (attr_lookup image "image_bytes") as [image_bytes |] eqn:Hb; simpl.
        -- destruct (truthy image_bytes) eqn:Ht.
           ++ split; [discriminate |].
              intros [H | (f & r & i & b & [= <- <-] & Hi' & Hb' & Ht')];
                [discriminate H |].
              rewrite Hi in Hi'. injection Hi' as <-.
              rewrite Hb in Hb'. injection Hb' as <-. congruence.
           ++ split; [| reflexivity].
              intros _. right. exists first, rest, image, image_bytes. auto.
        -- split; [discriminate |].
           intros [H | (f & r & i & b & [= <- <-] & Hi' & Hb' & _)];
             [discriminate H |].
           rewrite Hi in Hi'. injection Hi' as <-. congruence.
      * split; [discriminate |].
        intros [H | (f & r & i & b & [= <- <-] & Hi' & _)]; [discriminate H |].
        congruence.
Qed.

Lemma vto_domain_error_only_when_empty_or_no_bytes_witness :
  (generate_image_for_vto sample_config
     (sample_outside (Ok (GenerateImagesResponse (PList [entry_filtered "blocked"]))))
     "a model" initial_world).1
  = Raise (Exn AttributeError "image_bytes").
Proof.
  refine (proj1 (vto_domain_error_only_when_empty_or_no_bytes
                   sample_config
                   (sample_outside
                      (Ok (GenerateImagesResponse (PList [entry_filtered "blocked"]))))
                   "a model" initial_world
                   {| client_vertexai := true;
                      client_project := Some "demo-project";
                      client_location := Some "us-central1" |}
                   {[ "generated_images" := PList [entry_filtered "blocked"] ]}
                   [entry_filtered "blocked"] _ _ _)
                (entry_filtered "blocked") [] _ _);
    reflexivity.
Defined.

(** ** Empty results *)



Example empty_result_vto_sample :
  (generate_image_for_vto sample_config
     (sample_outside (Ok (GenerateImagesResponse (PList []))))
     "a model" initial_world).1 = Raise no_data.
Proof. vm_compute. reflexivity. Qed.

(** ** Recontextualization *)

Section Recontext.

Variable config : Default.
Variable env : outside.

#[local] Open Scope M_scope.

Lemma append_product_images_fmap (image_uris_list : list string) (acc : list pyval) :
  append_product_images image_uris_list acc
  = (acc ++ (product_image <$> image_uris_list))%list.
Proof.
  unfold append_product_images. revert acc.
  induction image_uris_list as [| uri rest IH]; intros acc; simpl.
  - rewrite app_nil_r. reflexivity.
  - rewrite IH, <- app_assoc. reflexivity.
Qed.

Lemma build_instance_productImages (image_uris_list : list string) (prompt : string) :
  build_instance image_uris_list prompt !! "productImages"
  = Some (PList (product_image <$> image_uris_list)).
Proof.
  unfold build_instance. rewrite append_product_images_fmap. simpl.
  destruct (negb _).
  - rewrite lookup_insert_ne by discriminate. apply lookup_singleton_eq.
  - apply lookup_singleton_eq.
Qed.

Lemma build_instance_prompt (image_uris_list : list string) (prompt : string) :
  build_instance image_uris_list prompt !! "prompt"
  = if String.eqb prompt EmptyString then None else Some (PStr prompt).
Proof.
  unfold build_instance. simpl.
  destruct (String.eqb prompt EmptyString); simpl.
  - apply lookup_singleton_ne. discriminate.
  - apply lookup_insert_eq.
Qed.

Lemma store_predictions_api_calls (predictions : list pyval) (acc : list string)
    (w : world) :
  api_calls (store_predictions env predictions acc w).2 = api_calls w.
Proof.
  revert acc w. induction predictions as [| prediction rest IH]; intros acc w.
  - reflexivity.
  - simpl. unfold bind, lift, fresh_uuid, store.
    destruct (dict_get prediction _) as [payload |]; [| reflexivity].
    destruct (truthy payload); [| apply IH].
    destruct (dict_item prediction _) as [encoded |]; [| reflexivity].
    destruct (b64decode env encoded) as [mask_bytes |]; [| reflexivity].
    destruct (store_to_gcs env _) as [gcs_uri |]; [| reflexivity].
    rewrite IH. reflexivity.
Qed.

Lemma recontextualize_issues_call (image_uris_list : list string) (prompt : string)
    (sample_count : Z) (w : world) :
  api_calls (recontextualize_product_in_scene config env image_uris_list prompt
                                              sample_count w).2
  = (api_calls w ++ [recontext_request config image_uris_list prompt sample_count])%list.
Proof.
  unfold recontextualize_product_in_scene, bind, lift, call.
  destruct (service env _ _) as [response |]; [| reflexivity].
  destruct (getattr response "predictions") as [predictions |]; [| reflexivity].
  destruct (py_iter predictions) as [items |]; [| reflexivity].
  rewrite store_predictions_api_calls. reflexivity.
Qed.

Lemma build_instance_other (image_uris_list : list string) (prompt key : string) :
  key <> "productImages" -> key <> "prompt" ->
  build_instance image_uris_list prompt !! key = None.
Proof.
  intros Hp Hq. unfold build_instance.
  destruct (truthy (PStr prompt)).
  - rewrite lookup_insert_ne by congruence. apply lookup_singleton_ne. congruence.
  - apply lookup_singleton_ne. congruence.
Qed.

(** C9. The request instance holds under [productImages] one entry per
    input URI, in the order of [image_uris_list], the entry of a URI being
    the dictionary [{"image": {"gcsUri": uri}}], and none for an empty
    list; it has a [prompt] field exactly when the prompt is not empty, and
    then the prompt is its value; it has no other field; and the remote
    call carrying this one instance, with [sampleCount] for parameter, is
    issued whatever the list. *)
Theorem recontext_instance_from_inputs (image_uris_list : list string)
    (prompt : string) (sample_count : Z) (w : world) :
  let instance := build_instance image_uris_list prompt in
  let entry := fun uri : string =>
    PDict {[ "image" := PDict {[ "gcsUri" := PStr uri ]} ]} in
  instance !! "productImages" = Some (PList (entry <$> image_uris_list)) /\
  length (entry <$> image_uris_list) = length image_uris_list /\
  (forall i uri,
      image_uris_list !! i = Some uri ->
      (entry <$> image_uris_list) !! i
      = Some (PDict {[ "image" := PDict {[ "gcsUri" := PStr uri ]} ]})) /\
  (image_uris_list = [] -> instance !! "productImages" = Some (PList [])) /\
  (is_Some (instance !! "prompt") <-> prompt <> EmptyString) /\
  (prompt <> EmptyString -> instance !! "prompt" = Some (PStr prompt)) /\
  (forall key, key <> "productImages" -> key <> "prompt" -> instance !! key = None) /\
  recontext_request config image_uris_list prompt sample_count
  = predict ("projects/" +:+ fmt (PROJECT_ID config) +:+ "/locations/"
             +:+ fmt (LOCATION config) +:+ "/publishers/google/models/"
             +:+ MODEL_IMAGEN_PRODUCT_RECONTEXT config)
            [PDict instance]
            (PDict {[ "sampleCount" := PInt sample_count ]}) /\
  api_calls (recontextualize_product_in_scene config env image_uris_list prompt
                                              sample_count w).2
  = (api_calls w ++ [recontext_request config image_uris_list prompt sample_count])%list.
Proof.
  intros instance entry. subst instance.
  assert (Hentries : build_instance image_uris_list prompt !! "productImages"
                     = Some (PList (entry <$> image_uris_list)))
    by apply build_instance_productImages.
  split; [exact Hentries |].
  split; [apply length_fmap |].
  split; [intros i uri Hi; rewrite list_lookup_fmap, Hi; reflexivity |].
  split; [intros ->; exact Hentries |].
  rewrite build_instance_prompt.
  destruct (String.eqb_spec prompt EmptyString) as [-> | Hne].
  - split; [split; [intros [x Hx]; discriminate Hx | intros H; contradiction] |].
    split; [intros H; contradiction |].
    split; [intros key; apply build_instance_other |].
    split; [reflexivity | apply recontextualize_issues_call].
  - split; [split; [intros _; exact Hne | intros _; eexists; reflexivity] |].
    split; [reflexivity |].
    split; [intros key; apply build_instance_other |].
    split; [reflexivity | apply recontextualize_issues_call].
Qed.

Example recontext_instance_sample :
  build_instance ["gs://a/1.png"; "gs://a/2.png"] "on a beach"
  = {[ "productImages" := PList [product_image "gs://a/1.png";
                                 product_image "gs://a/2.png"];
       "prompt" := PStr "on a beach" ]}.
Proof. vm_compute. reflexivity. Qed.

End Recontext.

Section RecontextResults.

Variable config : Default.
Variable env : outside.

#[local] Open Scope M_scope.

Lemma carried_payload (prediction : gmap string pyval) :
  carries_base64 prediction = true ->
  prediction !! "bytesBase64Encoded" = Some (base64_payload prediction).
Proof.
  unfold carries_base64, base64_payload.
  destruct (prediction !! "bytesBase64Encoded"); [reflexivity | discriminate].
Qed.

(** The loop of lines 276-288 is the upload of the carrying predictions. *)
Lemma store_predictions_upload_each (predictions : list (gmap string pyval))
    (acc : list string) (w : world) :
  store_predictions env (PDict <$> predictions) acc w
  = (uris <- upload_each env (List.filter carries_base64 predictions) ;;
     ret (acc ++ uris)%list) w.
Proof.
  revert acc w. induction predictions as [| prediction rest IH]; intros acc w.
  - simpl. unfold bind, ret. rewrite app_nil_r. reflexivity.
  - cbn [fmap list_fmap store_predictions List.filter].
    unfold bind at 1, lift at 1. cbn [dict_get].
    fold (base64_payload prediction). fold (carries_base64 prediction).
    destruct (carries_base64 prediction) eqn:Hc.
    + cbn [upload_each]. unfold bind, lift, dict_item.
      rewrite (carried_payload _ Hc).
      destruct (b64decode env (base64_payload prediction)) as [mask_bytes |];
        [| reflexivity].
      unfold fresh_uuid, store.
      destruct (store_to_gcs env _) as [gcs_uri |]; [| reflexivity].
      rewrite IH. unfold bind, ret.
      destruct (upload_each env _ _) as [[uris |] w']; [| reflexivity].
      rewrite <- app_assoc. reflexivity.
    + apply IH.
Qed.

Lemma upload_each_ok (carrying : list (gmap string pyval)) (w w' : world)
    (uris : list string) :
  upload_each env carrying w = (Ok uris, w') ->
  length uris = length carrying /\
  uploaded_in_order env (uuids w) carrying uris /\
  exists new, uploads w' = (uploads w ++ new)%list /\
              length new = length carrying /\ Forall recontext_result new.
Proof.
  revert w w' uris. induction carrying as [| prediction rest IH]; intros w w' uris.
  - simpl. unfold ret. intros [= <- <-].
    repeat split. exists []. rewrite app_nil_r. repeat split. constructor.
  - cbn [upload_each]. unfold bind, lift, fresh_uuid, store.
    destruct (b64decode env (base64_payload prediction)) as [mask_bytes |] eqn:Hd;
      [| discriminate].
    destruct (store_to_gcs env _) as [gcs_uri |] eqn:Hs; [| discriminate].
    destruct (upload_each env rest _) as [[uris' |] w1] eqn:Hrest; [| discriminate].
    unfold ret. intros [= <- <-].
    destruct (IH _ _ _ Hrest) as (Hlen & Hord & new & Hup & Hnew & Hall).
    split; [simpl; rewrite Hlen; reflexivity |].
    split.
    + simpl. split; [| exact Hord].
      exists mask_bytes. split; [exact Hd | exact Hs].
    + exists (recontext_upload (uuid4 env (uuids w)) mask_bytes :: new).
      split; [| split].
      * rewrite Hup. simpl. rewrite <- app_assoc. reflexivity.
      * simpl. rewrite Hnew. reflexivity.
      * constructor; [split; reflexivity | exact Hall].
Qed.

Lemma upload_each_returns (carrying : list (gmap string pyval)) (w : world) :
  (forall prediction, In prediction carrying ->
      exists mask_bytes, b64decode env (base64_payload prediction) = Ok mask_bytes) ->
  (forall u, exists gcs_uri, store_to_gcs env u = Ok gcs_uri) ->
  exists uris w', upload_each env carrying w = (Ok uris, w').
Proof.
  intros Hdec Hsto. revert w.
  induction carrying as [| prediction rest IH]; intros w.
  - eexists _, _. reflexivity.
  - cbn [upload_each]. unfold bind, lift, fresh_uuid, store.
    destruct (Hdec prediction (or_introl eq_refl)) as [mask_bytes ->].
    destruct (Hsto (recontext_upload (uuid4 env (uuids w)) mask_bytes)) as [gcs_uri ->].
    destruct (IH (fun p Hp => Hdec p (or_intror Hp))
                 (stored (recontext_upload (uuid4 env (uuids w)) mask_bytes) (drew w)))
      as (uris & w' & ->).
    eexists _, _. reflexivity.
Qed.

Lemma upload_each_stores (carrying : list (gmap string pyval)) (w w' : world)
    (uris : list string) :
  upload_each env carrying w = (Ok uris, w') ->
  exists new,
    uploads w' = (uploads w ++ new)%list /\
    stored_in_order env (uuids w) carrying new uris.
Proof.
  revert w w' uris. induction carrying as [| prediction rest IH]; intros w w' uris.
  - simpl. unfold ret. intros [= <- <-]. exists []. rewrite app_nil_r.
    split; [reflexivity | exact I].
  - cbn [upload_each]. unfold bind, lift, fresh_uuid, store.
    destruct (b64decode env (base64_payload prediction)) as [mask_bytes |] eqn:Hd;
      [| discriminate].
    destruct (store_to_gcs env _) as [gcs_uri |] eqn:Hs; [| discriminate].
    destruct (upload_each env rest _) as [[uris' |] w1] eqn:Hrest; [| discriminate].
    unfold ret. intros [= <- <-].
    destruct (IH _ _ _ Hrest) as (new & Hup & Hord).
    exists (recontext_upload (uuid4 env (uuids w)) mask_bytes :: new). split.
    + rewrite Hup. simpl. rewrite <- app_assoc. reflexivity.
    + cbn [stored_in_order]. split; [| exact Hord].
      exists mask_bytes. split; [exact Hd |]. split; [reflexivity | exact Hs].
Qed.

(** C6. For every list of predictions the recontextualization call returns,
    [recontextualize_product_in_scene] decodes the base64 payload of each
    prediction that carries one and uploads the decoded bytes to the
    storage collaborator: the object handed over has the decoded bytes for
    contents, folder [recontext_results], MIME type [image/png] and a file
    name made from a fresh UUID; the list it returns holds the locations
    the collaborator gave, one per carrying prediction, in the order of the
    predictions, and a prediction without payload adds nothing. It does
    return when every payload decodes and every upload is accepted. *)
Theorem recontext_uploads_each_payload (image_uris_list : list string)
    (prompt : string) (sample_count : Z) (w : world)
    (predictions : list (gmap string pyval)) :
  let request := recontext_request config image_uris_list prompt sample_count in
  let carrying := List.filter carries_base64 predictions in
  service env (length (api_calls w)) request = Ok (PredictResponse predictions) ->
  recontextualize_product_in_scene config env image_uris_list prompt sample_count w
  = upload_each env carrying (called request w) /\
  (forall uris w',
      upload_each env carrying (called request w) = (Ok uris, w') ->
      length uris = length carrying /\
      uploaded_in_order env (uuids w) carrying uris /\
      exists new, uploads w' = (uploads w ++ new)%list /\
                  length new = length carrying /\ Forall recontext_result new /\
                  stored_in_order env (uuids w) carrying new uris) /\
  ((forall prediction, In prediction carrying ->
       exists mask_bytes, b64decode env (base64_payload prediction) = Ok mask_bytes) ->
   (forall u, exists gcs_uri, store_to_gcs env u = Ok gcs_uri) ->
   exists uris w',
     recontextualize_product_in_scene config env image_uris_list prompt sample_count w
     = (Ok uris, w')).
Proof.
  intros request carrying Hs.
  assert (Hrun : recontextualize_product_in_scene config env image_uris_list prompt
                   sample_count w
                 = upload_each env carrying (called request w)).
  { unfold recontextualize_product_in_scene, bind at 1, call.
    fold request. rewrite Hs. unfold PredictResponse.
    unfold bind at 1, lift at 1, getattr. cbn [attr_lookup].
    rewrite lookup_singleton_eq.
    unfold bind at 1, lift at 1. cbn [py_iter].
    rewrite store_predictions_upload_each. unfold bind, ret. fold carrying.
    destruct (upload_each env carrying _) as [[uris |] w']; reflexivity. }
  split; [exact Hrun |].
  split.
  - intros uris w' Hok.
    destruct (upload_each_ok _ _ _ _ Hok) as (Hlen & Hord & new & Hup & Hnew & Hall).
    destruct (upload_each_stores _ _ _ _ Hok) as (new' & Hup' & Hstored).
    assert (new' = new) as ->.
    { rewrite Hup in Hup'. apply app_inv_head in Hup'. congruence. }
    split; [exact Hlen |]. split; [exact Hord |].
    exists new. auto.
  - intros Hdec Hsto. rewrite Hrun. apply upload_each_returns; assumption.
Qed.

End RecontextResults.

Lemma recontext_uploads_each_payload_witness :
  let predictions : list (gmap string pyval) :=
    [ {[ "bytesBase64Encoded" := PStr "QUJD" ]};
      {[ "raiFilteredReason" := PStr "blocked" ]};
      {[ "bytesBase64Encoded" := PStr "REVG" ]} ] in
  let env := sample_outside (Ok (PredictResponse predictions)) in
  (recontextualize_product_in_scene sample_config env ["gs://a/1.png"] "on a beach" 2
                                    initial_world).1
  = Ok ["gs://demo-bucket/recontext_results/recontext_result_uuid-0.png";
        "gs://demo-bucket/recontext_results/recontext_result_uuid-1.png"].
Proof.
  intros predictions env.
  destruct (recontext_uploads_each_payload sample_config env ["gs://a/1.png"]
              "on a beach" 2 initial_world predictions eq_refl) as [H _].
  rewrite H. vm_compute. reflexivity.
Defined.

(** * Further properties of the module *)

(** ** The URI extraction on arbitrary entries *)

Lemma gcs_uris_step (entry : pyval) (rest : list pyval) :
  gcs_uris (entry :: rest) =
  match image_gcs_uri entry with
  | Some gcs_uri => uris <-! gcs_uris rest ;; Ok (gcs_uri :: uris)
  | None => gcs_uris rest
  end.
Proof.
  unfold image_gcs_uri. cbn [gcs_uris]. unfold hasattr, getattr.
  destruct (attr_lookup entry "image") as [image |]; [| reflexivity].
  cbn [result_bind].
  destruct (attr_lookup image "gcs_uri") as [gcs_uri |]; reflexivity.
Qed.

Lemma gcs_uris_omap (entries : list pyval) :
  gcs_uris entries = Ok (omap image_gcs_uri entries).
Proof.
  induction entries as [| entry rest IH]; [reflexivity |].
  rewrite gcs_uris_step, IH. cbn [omap list_omap].
  destruct (image_gcs_uri entry); reflexivity.
Qed.

(** X1. Whatever the entries are, the comprehension of lines 182-186,
    208-212 and 350-354 raises nothing: it returns, in the order of the
    entries, the [gcs_uri] attribute of the image of every entry that has
    an image attribute whose value has a [gcs_uri] attribute, so at most
    one result per entry. *)
Theorem gcs_uris_total (entries : list pyval) :
  gcs_uris entries = Ok (omap image_gcs_uri entries) /\
  (length (omap image_gcs_uri entries) <= length entries)%nat.
Proof.
  split; [apply gcs_uris_omap |].
  induction entries as [| entry rest IH]; [reflexivity |].
  cbn [omap list_omap]. destruct (image_gcs_uri entry); simpl; lia.
Qed.

(** ** Diagnostics on responses of the SDK *)

Lemma log_generated_image_sdk (entry : pyval) :
  sdk_entry entry -> log_generated_image entry = Ok tt.
Proof.
  intros (image & reason & -> & [-> | (gcs_uri & image_bytes & ->)]).
  - reflexivity.
  - reflexivity.
Qed.

Lemma for_each_log_sdk (entries : list pyval) :
  Forall sdk_entry entries -> for_each log_generated_image entries = Ok tt.
Proof.
  induction 1 as [| entry rest He _ IH]; [reflexivity |].
  cbn [for_each]. rewrite (log_generated_image_sdk _ He). exact IH.
Qed.

Lemma log_response_sdk (attrs : gmap string pyval) (entries : list pyval) :
  attrs !! "generated_images" = Some (PList entries) ->
  Forall sdk_entry entries ->
  log_response (PObj attrs) = Ok tt.
Proof.
  intros Hgi Hall. unfold log_response, attr_truthy, getattr.
  cbn [attr_lookup truthy andb]. rewrite Hgi.
  destruct (truthy (PList entries)); [| reflexivity].
  cbn [result_bind py_len py_iter]. apply for_each_log_sdk, Hall.
Qed.

(** ** One attempt of the retried functions *)

Section Attempts.

Variable config : Default.
Variable env : outside.

Lemma generate_images_body_attempt (model prompt : string) (number_of_images : Z)
    (aspect_ratio negative_prompt : string) (w : world) (c : client) :
  let request := generate_request config c model prompt number_of_images
                                  aspect_ratio negative_prompt in
  ImagenModelSetup_init config None None (Some model) = Ok c ->
  generate_images_body config env model prompt number_of_images
                       aspect_ratio negative_prompt w
  = (response <-! service env (length (api_calls w)) request ;;
     _ <-! log_response response ;;
     Ok response,
     called request w).
Proof.
  intros request Hc. unfold generate_images_body, bind, lift, call, ret.
  rewrite Hc. fold request.
  destruct (service env _ request) as [response |]; [| reflexivity].
  cbn [result_bind]. destruct (log_response response) as [[] |]; reflexivity.
Qed.

Lemma edit_image_body_attempt (model prompt edit_mode mask_mode : string)
    (reference_image_bytes reference_image : pyval) (number_of_images : Z)
    (w : world) (c : client) :
  let request := edit_request config c model prompt edit_mode mask_mode
                              reference_image number_of_images in
  ImagenModelSetup_init config None None (Some model) = Ok c ->
  validate_reference_image env reference_image_bytes = Ok reference_image ->
  edit_image_body config env model prompt edit_mode mask_mode
                  reference_image_bytes number_of_images w
  = (response <-! service env (length (api_calls w)) request ;;
     edited_uris response,
     called request w).
Proof.
  intros request Hc Hv. unfold edit_image_body, bind, lift, call.
  rewrite Hc, Hv. fold request.
  destruct (service env _ request) as [response |]; reflexivity.
Qed.

Lemma edit_image_body_refused (model prompt edit_mode mask_mode : string)
    (reference_image_bytes : pyval) (number_of_images : Z) (w : world)
    (c : client) (e : exn) :
  ImagenModelSetup_init config None None (Some model) = Ok c ->
  validate_reference_image env reference_image_bytes = Raise e ->
  edit_image_body config env model prompt edit_mode mask_mode
                  reference_image_bytes number_of_images w
  = (Raise e, w).
Proof.
  intros Hc Hv. unfold edit_image_body, bind, lift. rewrite Hc, Hv. reflexivity.
Qed.

Lemma init_absent_raises (project_id location model_id : option string) :
  identifier_absent config project_id location model_id ->
  ImagenModelSetup_init config project_id location model_id
  = Raise (Exn ValueError "All parameters must be set.").
Proof.
  intros Habs. rewrite init_outcome.
  assert (existsb is_None
            [or_default project_id (PROJECT_ID config);
             or_default location (LOCATION config);
             or_default model_id (MODEL_ID config)] = true) as ->;
    [| reflexivity].
  rewrite existsb_is_None3, !or_default_None. exact Habs.
Qed.

(** X2. When the first remote call answers with a response of the SDK whose
    generated images form a list, [generate_images_from_prompt] issues that
    one call, for the prompt [input_txt, prompt_modifiers_segment], sleeps
    never, and returns the [gcs_uri] field of every entry that has an image,
    in order; a field holding [None] is returned as [None]. *)
Theorem generate_images_from_prompt_first_success
    (fuel : nat) (input_txt model : string) (image_count : Z)
    (negative_prompt modifiers aspect_ratio : string) (w : world) (c : client)
    (attrs : gmap string pyval) (entries : list pyval) :
  let request :=
    generate_request config c model (input_txt +:+ ", " +:+ modifiers)
                     image_count aspect_ratio negative_prompt in
  ImagenModelSetup_init config None None (Some model) = Ok c ->
  service env (length (api_calls w)) request = Ok (PObj attrs) ->
  attrs !! "generated_images" = Some (PList entries) ->
  Forall sdk_entry entries ->
  generate_images_from_prompt config env (S fuel) input_txt model image_count
                              negative_prompt modifiers aspect_ratio w
  = Some (Ok (omap image_gcs_uri entries), called request w).
Proof.
  intros request Hc Hs Hgi Hall. unfold generate_images_from_prompt.
  rewrite (generate_images_run _ _ _ _ _ _ _ _ _ _ _ Hc Hs)
    by (apply (log_response_sdk _ _ Hgi Hall)).
  cbn [after_call]. rewrite (generated_uris_of_list _ _ Hgi), gcs_uris_omap.
  reflexivity.
Qed.

(** X3. When the reference image is one the SDK accepts and the first
    remote call answers with a response whose generated images form a list,
    [edit_image] issues that one call, sleeps never, and returns the
    [gcs_uri] attribute of the image of every entry that has one, in order:
    the same list as the extraction of [generate_images_from_prompt] on
    that response. *)
Theorem edit_image_first_success
    (fuel : nat) (model prompt edit_mode mask_mode : string)
    (reference_image_bytes reference_image : pyval) (number_of_images : Z)
    (w : world) (c : client) (attrs : gmap string pyval) (entries : list pyval) :
  let request := edit_request config c model prompt edit_mode mask_mode
                              reference_image number_of_images in
  ImagenModelSetup_init config None None (Some model) = Ok c ->
  validate_reference_image env reference_image_bytes = Ok reference_image ->
  service env (length (api_calls w)) request = Ok (PObj attrs) ->
  attrs !! "generated_images" = Some (PList entries) ->
  edit_image config env (S fuel) model prompt edit_mode mask_mode
             reference_image_bytes number_of_images w
  = Some (Ok (omap image_gcs_uri entries), called request w) /\
  generated_uris (PObj attrs) = Ok (omap image_gcs_uri entries).
Proof.
  intros request Hc Hv Hs Hgi. split.
  - apply (edit_image_run _ _ _ _ _ _ _ _ _ _ _ _ _ _ Hc Hv Hs).
    rewrite (edited_uris_of_list _ _ Hgi). apply gcs_uris_omap.
  - rewrite (generated_uris_of_list _ _ Hgi). apply gcs_uris_omap.
Qed.

(** X4. When the remote call succeeds with a response whose list of
    generated images is [None], [generate_images_from_prompt] and
    [generate_virtual_models] raise a [TypeError] from the iteration, after
    the one call and outside the retrying wrapper, where [edit_image]
    returns the empty list. *)
Theorem absent_images_raise_TypeError
    (fuel : nat) (input_txt model prompt : string) (image_count : Z)
    (negative_prompt modifiers aspect_ratio : string) (w : world) (c c' : client)
    (attrs : gmap string pyval) :
  let request :=
    generate_request config c model (input_txt +:+ ", " +:+ modifiers)
                     image_count aspect_ratio negative_prompt in
  let request' :=
    generate_request config c' (MODEL_IMAGEN4_FAST config) prompt image_count
                     "1:1" EmptyString in
  attrs !! "generated_images" = Some PNone ->
  (ImagenModelSetup_init config None None (Some model) = Ok c ->
   service env (length (api_calls w)) request = Ok (PObj attrs) ->
   generate_images_from_prompt config env (S fuel) input_txt model image_count
                               negative_prompt modifiers aspect_ratio w
   = Some (Raise (Exn TypeError "object is not iterable"), called request w)) /\
  (ImagenModelSetup_init config None None (Some (MODEL_IMAGEN4_FAST config)) = Ok c' ->
   service env (length (api_calls w)) request' = Ok (PObj attrs) ->
   generate_virtual_models config env (S fuel) prompt image_count w
   = Some (Raise (Exn TypeError "object is not iterable"), called request' w)) /\
  edited_uris (PObj attrs) = Ok [].
Proof.
  intros request request' Hgi.
  assert (Hno : attr_truthy (PObj attrs) "generated_images" = false).
  { unfold attr_truthy. cbn [attr_lookup]. rewrite Hgi. reflexivity. }
  assert (Hgen : generated_uris (PObj attrs)
                 = Raise (Exn TypeError "object is not iterable")).
  { unfold generated_uris, getattr. cbn [attr_lookup]. rewrite Hgi. reflexivity. }
  split; [| split].
  - intros Hc Hs. unfold generate_images_from_prompt.
    rewrite (generate_images_run _ _ _ _ _ _ _ _ _ _ _ Hc Hs)
      by (apply log_response_no_images, Hno).
    cbn [after_call]. rewrite Hgen. reflexivity.
  - intros Hc Hs. unfold generate_virtual_models.
    rewrite (generate_images_run _ _ _ _ _ _ _ _ _ _ _ Hc Hs)
      by (apply log_response_no_images, Hno).
    cbn [after_call]. rewrite Hgen. reflexivity.
  - apply edited_uris_no_images, Hno.
Qed.

End Attempts.

(** ** The retried functions as a whole *)

Section Retried.

Variable config : Default.
Variable env : outside.

Lemma three_attempts_failing_setup {A} (fn : M A) (e : exn) (w : world) :
  (forall w0, fn w0 = (Raise e, w0)) -> retryable e = true ->
  three_attempts fn w = (Raise e, slept 2 (slept 1 w)).
Proof.
  intros Hfn He. unfold three_attempts. rewrite !Hfn, He. reflexivity.
Qed.

#[local] Ltac attempts_made_tac :=
  unfold attempts_made; simpl; repeat split;
  rewrite <- ?app_assoc, ?app_nil_r; reflexivity.

Lemma three_attempts_made {A} (fn : M A) (request : api_call) (w : world) :
  (forall w0, (fn w0).2 = called request w0) ->
  exists k, (1 <= k <= 3)%nat /\ attempts_made k request w (three_attempts fn w).2.
Proof.
  intros Hfn. unfold three_attempts.
  pose proof (Hfn w) as H1. destruct (fn w) as [[a1 | e1] w1]; simpl in H1; subst w1.
  { exists 1%nat. split; [lia | attempts_made_tac]. }
  destruct (retryable e1).
  2:{ exists 1%nat. split; [lia | attempts_made_tac]. }
  pose proof (Hfn (slept 1 (called request w))) as H2.
  destruct (fn (slept 1 (called request w))) as [[a2 | e2] w2]; simpl in H2; subst w2.
  { exists 2%nat. split; [lia | attempts_made_tac]. }
  destruct (retryable e2).
  2:{ exists 2%nat. split; [lia | attempts_made_tac]. }
  pose proof (Hfn (slept 2 (called request (slept 1 (called request w))))) as H3.
  destruct (fn _) as [r3 w3]; simpl in H3; subst w3.
  exists 3%nat. split; [lia | attempts_made_tac].
Qed.

(** X5. When an identifier is neither passed nor configured,
    [generate_images] and [edit_image] fail with the [ValueError] of the
    client factory only after the wrapper went through its three attempts
    and slept one and then two seconds; no remote call is issued. *)
Theorem configuration_error_is_retried
    (fuel : nat) (w : world)
    (model prompt aspect_ratio negative_prompt edit_mode mask_mode : string)
    (reference_image_bytes : pyval) (number_of_images : Z) :
  (3 <= fuel)%nat ->
  identifier_absent config None None (Some model) ->
  generate_images config env fuel model prompt number_of_images
                  aspect_ratio negative_prompt w
    = Some (Raise setup_failure, slept 2 (slept 1 w)) /\
  edit_image config env fuel model prompt edit_mode mask_mode
             reference_image_bytes number_of_images w
    = Some (Raise setup_failure, slept 2 (slept 1 w)) /\
  api_calls (slept 2 (slept 1 w)) = api_calls w /\
  sleeps (slept 2 (slept 1 w)) = (sleeps w ++ [1; 2])%list.
Proof.
  intros Hfuel Habs.
  pose proof (init_absent_raises config _ _ _ Habs) as Hinit.
  split; [| split; [| split]].
  - unfold generate_images. rewrite retry_call_three_attempts by exact Hfuel.
    f_equal. apply three_attempts_failing_setup; [| reflexivity].
    intros w0. unfold generate_images_body, bind, lift. rewrite Hinit. reflexivity.
  - unfold edit_image. rewrite retry_call_three_attempts by exact Hfuel.
    f_equal. apply three_attempts_failing_setup; [| reflexivity].
    intros w0. unfold edit_image_body, bind, lift. rewrite Hinit. reflexivity.
  - reflexivity.
  - simpl. rewrite <- app_assoc. reflexivity.
Qed.

Lemma called_length (request : api_call) (w : world) :
  length (api_calls (called request w)) = S (length (api_calls w)).
Proof. simpl. rewrite length_app. simpl. lia. Qed.

(** X6. When the first two remote calls of [generate_images] raise
    instances of [Exception] and the third returns a response the
    diagnostics accept, [generate_images] returns that response, having
    issued the same request three times and slept one and then two
    seconds. *)
Theorem generate_images_third_attempt_succeeds
    (fuel : nat) (model prompt : string) (number_of_images : Z)
    (aspect_ratio negative_prompt : string) (w : world) (c : client)
    (e1 e2 : exn) (response : pyval) :
  let request := generate_request config c model prompt number_of_images
                                  aspect_ratio negative_prompt in
  let n := length (api_calls w) in
  (3 <= fuel)%nat ->
  ImagenModelSetup_init config None None (Some model) = Ok c ->
  service env n request = Raise e1 -> retryable e1 = true ->
  service env (S n) request = Raise e2 -> retryable e2 = true ->
  service env (S (S n)) request = Ok response ->
  log_response response = Ok tt ->
  generate_images config env fuel model prompt number_of_images
                  aspect_ratio negative_prompt w
    = Some (Ok response, after_three_calls request w) /\
  attempts_made 3 request w (after_three_calls request w).
Proof.
  intros request n Hfuel Hc H1 R1 H2 R2 H3 Hlog. split.
  - unfold generate_images. rewrite retry_call_three_attempts by exact Hfuel.
    f_equal.
    apply (three_attempts_third_succeeds _ w (called request w)
             (called request (slept 1 (called request w))) _ e1 e2); try assumption.
    + rewrite (generate_images_body_attempt _ _ _ _ _ _ _ _ _ Hc).
      fold request n. rewrite H1. reflexivity.
    + rewrite (generate_images_body_attempt _ _ _ _ _ _ _ _ _ Hc).
      fold request.
      change (api_calls (slept 1 (called request w)))
        with (api_calls (called request w)).
      rewrite called_length. fold n. rewrite H2. reflexivity.
    + rewrite (generate_images_body_attempt _ _ _ _ _ _ _ _ _ Hc).
      fold request.
      change (api_calls (slept 2 (called request (slept 1 (called request w)))))
        with (api_calls (called request (slept 1 (called request w)))).
      rewrite called_length.
      change (api_calls (slept 1 (called request w)))
        with (api_calls (called request w)).
      rewrite called_length. fold n. rewrite H3. cbn [result_bind].
      rewrite Hlog. reflexivity.
  - attempts_made_tac.
Qed.

(** X7. Once the client is built, [generate_images] issues the same request
    between one and three times, whatever the remote service does, sleeping
    one second after a first failed attempt and two after a second one,
    three seconds at most; so does [edit_image] when the SDK accepts the
    reference image. When the SDK refuses it with an instance of
    [Exception], as it does raw bytes, [edit_image] raises that exception
    after three attempts and the two sleeps without issuing any call.
    Neither function uploads anything or draws a UUID. *)
Theorem retried_calls_bounded
    (fuel : nat) (w : world)
    (model prompt aspect_ratio negative_prompt edit_mode mask_mode : string)
    (reference_image_bytes : pyval) (number_of_images : Z) (c : client) :
  (3 <= fuel)%nat ->
  ImagenModelSetup_init config None None (Some model) = Ok c ->
  (exists k outcome w',
      generate_images config env fuel model prompt number_of_images
                      aspect_ratio negative_prompt w = Some (outcome, w') /\
      (1 <= k <= 3)%nat /\
      attempts_made k (generate_request config c model prompt number_of_images
                                        aspect_ratio negative_prompt) w w') /\
  (forall reference_image,
      validate_reference_image env reference_image_bytes = Ok reference_image ->
      exists k outcome w',
        edit_image config env fuel model prompt edit_mode mask_mode
                   reference_image_bytes number_of_images w = Some (outcome, w') /\
        (1 <= k <= 3)%nat /\
        attempts_made k (edit_request config c model prompt edit_mode mask_mode
                                      reference_image number_of_images) w w') /\
  (forall e,
      validate_reference_image env reference_image_bytes = Raise e ->
      retryable e = true ->
      edit_image config env fuel model prompt edit_mode mask_mode
                 reference_image_bytes number_of_images w
        = Some (Raise e, slept 2 (slept 1 w)) /\
      api_calls (slept 2 (slept 1 w)) = api_calls w /\
      sleeps (slept 2 (slept 1 w)) = (sleeps w ++ [1; 2])%list).
Proof.
  intros Hfuel Hc. split; [| split].
  - unfold generate_images. rewrite retry_call_three_attempts by exact Hfuel.
    destruct (three_attempts_made
                (generate_images_body config env model prompt number_of_images
                                      aspect_ratio negative_prompt)
                (generate_request config c model prompt number_of_images
                                  aspect_ratio negative_prompt) w) as (k & Hk & Hmade).
    { intros w0. rewrite (generate_images_body_attempt _ _ _ _ _ _ _ _ _ Hc).
      reflexivity. }
    destruct (three_attempts _ w) as [outcome w'].
    exists k, outcome, w'. auto.
  - intros reference_image Hv.
    unfold edit_image. rewrite retry_call_three_attempts by exact Hfuel.
    destruct (three_attempts_made
                (edit_image_body config env model prompt edit_mode mask_mode
                                 reference_image_bytes number_of_images)
                (edit_request config c model prompt edit_mode mask_mode
                              reference_image number_of_images) w)
      as (k & Hk & Hmade).
    { intros w0. rewrite (edit_image_body_attempt _ _ _ _ _ _ _ _ _ _ _ Hc Hv).
      reflexivity. }
    destruct (three_attempts _ w) as [outcome w'].
    exists k, outcome, w'. auto.
  - intros e Hv He. split; [| split].
    + unfold edit_image. rewrite retry_call_three_attempts by exact Hfuel.
      f_equal. apply three_attempts_failing_setup; [| exact He].
      intros w0. apply (edit_image_body_refused _ _ _ _ _ _ _ _ _ _ _ Hc Hv).
    + reflexivity.
    + simpl. rewrite <- app_assoc. reflexivity.
Qed.

End Retried.

Lemma sample_entries_sdk : Forall sdk_entry sample_entries.
Proof.
  repeat constructor.
  - eexists _, _. split; [reflexivity |]. right. eexists _, _. reflexivity.
  - eexists _, _. split; [reflexivity |]. left. reflexivity.
  - eexists _, _. split; [reflexivity |]. right. eexists _, _. reflexivity.
Qed.

Lemma generate_images_from_prompt_first_success_witness :
  generate_images_from_prompt sample_config
    (sample_outside (Ok (GenerateImagesResponse (PList sample_entries))))
    1 "a cat" "m" 3 "blurry" "watercolor" "1:1" initial_world
  = Some (Ok [PStr "gs://b/0.png"; PNone],
          called (generate_request sample_config sample_client "m"
                                   "a cat, watercolor" 3 "1:1" "blurry")
                 initial_world).
Proof.
  apply (generate_images_from_prompt_first_success sample_config
           (sample_outside (Ok (GenerateImagesResponse (PList sample_entries))))
           0 "a cat" "m" 3 "blurry" "watercolor" "1:1" initial_world sample_client
           {[ "generated_images" := PList sample_entries ]} sample_entries).
  - reflexivity.
  - reflexivity.
  - reflexivity.
  - exact sample_entries_sdk.
Defined.

Lemma edit_image_first_success_witness :
  edit_image sample_config
    (sample_outside (Ok (GenerateImagesResponse (PList sample_entries))))
    1 "m" "add a hat" "EDIT_MODE_INPAINT_INSERTION" "MASK_MODE_FOREGROUND"
    sample_reference 3 initial_world
  = Some (Ok [PStr "gs://b/0.png"; PNone],
          called (edit_request sample_config sample_client "m" "add a hat"
                               "EDIT_MODE_INPAINT_INSERTION" "MASK_MODE_FOREGROUND"
                               sample_reference 3)
                 initial_world).
Proof.
  refine (proj1 (edit_image_first_success sample_config
                   (sample_outside (Ok (GenerateImagesResponse (PList sample_entries))))
                   0 "m" "add a hat" "EDIT_MODE_INPAINT_INSERTION"
                   "MASK_MODE_FOREGROUND" sample_reference sample_reference 3
                   initial_world sample_client
                   {[ "generated_images" := PList sample_entries ]} sample_entries
                   _ _ _ _)); reflexivity.
Defined.

Lemma absent_images_raise_TypeError_witness :
  generate_virtual_models sample_config
    (sample_outside (Ok (GenerateImagesResponse PNone))) 1 "a model" 2 initial_world
  = Some (Raise (Exn TypeError "object is not iterable"),
          called (generate_request sample_config sample_client
                                   (MODEL_IMAGEN4_FAST sample_config) "a model" 2
                                   "1:1" EmptyString)
                 initial_world).
Proof.
  refine (proj1 (proj2 (absent_images_raise_TypeError sample_config
                          (sample_outside (Ok (GenerateImagesResponse PNone)))
                          0 "a cat" "m" "a model" 2 "blurry" "watercolor" "1:1"
                          initial_world sample_client sample_client
                          {[ "generated_images" := PNone ]} _)) _ _);
    reflexivity.
Defined.

Lemma configuration_error_is_retried_witness :
  generate_images sample_config_without_project
    (sample_outside (Ok (GenerateImagesResponse (PList sample_entries))))
    3 "m" "a cat" 1 "1:1" EmptyString initial_world
  = Some (Raise setup_failure, slept 2 (slept 1 initial_world)).
Proof.
  refine (proj1 (configuration_error_is_retried sample_config_without_project
                   (sample_outside (Ok (GenerateImagesResponse (PList sample_entries))))
                   3 initial_world "m" "a cat" "1:1" EmptyString
                   "EDIT_MODE_INPAINT_INSERTION" "MASK_MODE_FOREGROUND"
                   (PBytes png_magic) 1 _ _)).
  - lia.
  - left. split; reflexivity.
Defined.

Lemma generate_images_third_attempt_succeeds_witness :
  generate_images sample_config
    (flaky_outside 2 server_error (GenerateImagesResponse (PList sample_entries)))
    3 "m" "a cat" 1 "1:1" EmptyString initial_world
  = Some (Ok (GenerateImagesResponse (PList sample_entries)),
          after_three_calls
            (generate_request sample_config sample_client "m" "a cat" 1 "1:1"
                              EmptyString)
            initial_world).
Proof.
  refine (proj1 (generate_images_third_attempt_succeeds sample_config
                   (flaky_outside 2 server_error
                      (GenerateImagesResponse (PList sample_entries)))
                   3 "m" "a cat" 1 "1:1" EmptyString initial_world sample_client
                   server_error server_error
                   (GenerateImagesResponse (PList sample_entries))
                   _ _ _ _ _ _ _ _)); first [reflexivity | lia].
Defined.

Lemma retried_calls_bounded_witness :
  edit_image sample_config
    (sample_outside (Ok (GenerateImagesResponse (PList sample_entries))))
    3 "m" "add a hat" "EDIT_MODE_INPAINT_INSERTION" "MASK_MODE_FOREGROUND"
    (PBytes png_magic) 1 initial_world
  = Some (Raise validation_error, slept 2 (slept 1 initial_world)).
Proof.
  refine (proj1 (proj2 (proj2 (retried_calls_bounded sample_config
                   (sample_outside (Ok (GenerateImagesResponse (PList sample_entries))))
                   3 initial_world "m" "add a hat" "1:1" EmptyString
                   "EDIT_MODE_INPAINT_INSERTION" "MASK_MODE_FOREGROUND"
                   (PBytes png_magic) 1 sample_client _ _))
                validation_error _ _)).
  - lia.
  - reflexivity.
  - reflexivity.
  - reflexivity.
Defined.

(** ** The single-image path, further *)

(** X8. [generate_image_for_vto] is not retried and never sleeps: an absent
    identifier makes it raise the [ValueError] of the client factory at
    once, without a remote call; once the client is built it issues exactly
    one call, and an exception of that call is raised as it is. *)
Theorem vto_single_attempt (config : Default) (env : outside) (prompt : string)
    (w : world) :
  (identifier_absent config None None (Some (MODEL_IMAGEN4_FAST config)) ->
   generate_image_for_vto config env prompt w = (Raise setup_failure, w)) /\
  (forall c,
      ImagenModelSetup_init config None None (Some (MODEL_IMAGEN4_FAST config)) = Ok c ->
      (generate_image_for_vto config env prompt w).2
        = called (vto_request config env c) w /\
      forall e,
        service env (length (api_calls w)) (vto_request config env c) = Raise e ->
        generate_image_for_vto config env prompt w
          = (Raise e, called (vto_request config env c) w)).
Proof.
  split.
  - intros Habs. unfold generate_image_for_vto, bind, lift.
    rewrite (init_absent_raises _ _ _ _ Habs). reflexivity.
  - intros c Hc. unfold generate_image_for_vto, bind, lift, call. rewrite Hc.
    split.
    + destruct (service env _ _); reflexivity.
    + intros e ->. reflexivity.
Qed.

(** X9. What [generate_image_for_vto] returns is never empty: a returned
    value is the truthy [image_bytes] attribute of the image of the first
    generated image of the response. *)
Theorem vto_returns_first_image_bytes (config : Default) (env : outside)
    (prompt : string) (w w' : world) (v : pyval) :
  generate_image_for_vto config env prompt w = (Ok v, w') ->
  truthy v = true /\
  exists c response generated_images first image,
    service env (length (api_calls w)) (vto_request config env c) = Ok response /\
    attr_lookup response "generated_images" = Some generated_images /\
    py_first generated_images = Ok first /\
    attr_lookup first "image" = Some image /\
    attr_lookup image "image_bytes" = Some v.
Proof.
  unfold generate_image_for_vto, bind, lift, call.
  destruct (ImagenModelSetup_init _ _ _ _) as [c |]; [| discriminate].
  destruct (service env _ _) as [response |] eqn:Hs; [| discriminate].
  unfold first_image_bytes, getattr.
  destruct (attr_lookup response "generated_images") as [generated_images |] eqn:Hgi;
    [| discriminate].
  cbn [result_bind]. destruct (truthy generated_images); [| discriminate].
  destruct (py_first generated_images) as [first |] eqn:Hf; [| discriminate].
  cbn [result_bind].
  destruct (attr_lookup first "image") as [image |] eqn:Hi; [| discriminate].
  cbn [result_bind].
  destruct (attr_lookup image "image_bytes") as [image_bytes |] eqn:Hb;
    [| discriminate].
  cbn [result_bind]. destruct (truthy image_bytes) eqn:Ht; [| discriminate].
  intros [= <- <-]. split; [exact Ht |].
  exists c, response, generated_images, first, image. auto.
Qed.

Lemma vto_returns_first_image_bytes_witness :
  truthy (PBytes png_magic) = true.
Proof.
  refine (proj1 (vto_returns_first_image_bytes sample_config
                   (sample_outside
                      (Ok (GenerateImagesResponse
                             (PList [entry_with_bytes png_magic; entry_filtered "x"]))))
                   "a model" initial_world
                   (called (vto_request sample_config
                              (sample_outside
                                 (Ok (GenerateImagesResponse
                                        (PList [entry_with_bytes png_magic;
                                                entry_filtered "x"]))))
                              sample_client)
                           initial_world)
                   (PBytes png_magic) _)).
  reflexivity.
Defined.

(** ** The client factory, further *)

(** X10. The handle [ImagenModelSetup.init] returns does not depend on the
    model identifier: two calls that differ in [model_id] only and both
    succeed return the same handle. *)
Theorem init_client_ignores_model (config : Default)
    (project_id location model_id model_id' : option string) (c c' : client) :
  ImagenModelSetup_init config project_id location model_id = Ok c ->
  ImagenModelSetup_init config project_id location model_id' = Ok c' ->
  c = c'.
Proof.
  rewrite !init_outcome.
  do 2 (destruct (existsb is_None _); [discriminate |]).
  intros [= <-] [= <-]. reflexivity.
Qed.

Lemma init_client_ignores_model_witness : sample_client = sample_client.
Proof.
  apply (init_client_ignores_model sample_config None None
           (Some "imagen-3.0-generate-002") (Some "imagen-4.0-fast-generate-001"));
    reflexivity.
Defined.

(** ** Recontextualization, further *)

Section RecontextFailures.

Variable config : Default.
Variable env : outside.

Lemma recontextualize_run (image_uris_list : list string) (prompt : string)
    (sample_count : Z) (w : world) (predictions : list (gmap string pyval)) :
  let request := recontext_request config image_uris_list prompt sample_count in
  service env (length (api_calls w)) request = Ok (PredictResponse predictions) ->
  recontextualize_product_in_scene config env image_uris_list prompt sample_count w
  = upload_each env (List.filter carries_base64 predictions) (called request w).
Proof.
  intros request Hs.
  unfold recontextualize_product_in_scene, bind at 1, call.
  fold request. rewrite Hs. unfold PredictResponse.
  unfold bind at 1, lift at 1, getattr. cbn [attr_lookup].
  rewrite lookup_singleton_eq.
  unfold bind at 1, lift at 1. cbn [py_iter].
  rewrite store_predictions_upload_each. unfold bind, ret.
  destruct (upload_each env _ _) as [[uris |] w']; reflexivity.
Qed.

Lemma upload_each_stops_at_failure (done rest : list (gmap string pyval))
    (bad : gmap string pyval) (e : exn) (w w1 : world) (uris : list string) :
  upload_each env done w = (Ok uris, w1) ->
  b64decode env (base64_payload bad) = Raise e ->
  upload_each env (done ++ bad :: rest) w = (Raise e, w1).
Proof.
  revert w uris. induction done as [| prediction done IH]; intros w uris.
  - simpl. unfold ret, bind, lift. intros [= <- <-] ->. reflexivity.
  - cbn [app upload_each]. unfold bind, lift, fresh_uuid, store.
    destruct (b64decode env (base64_payload prediction)) as [mask_bytes |];
      [| discriminate].
    destruct (store_to_gcs env _) as [gcs_uri |]; [| discriminate].
    destruct (upload_each env done _) as [[uris' |] w2] eqn:Hdone; [| discriminate].
    unfold ret. intros [= <- <-] Hbad.
    rewrite (IH _ _ Hdone Hbad). reflexivity.
Qed.

(** X11. [recontextualize_product_in_scene] is not retried, and a failure
    does not undo what was done: an exception of the remote call is raised
    after that one call, nothing being uploaded; an exception of the
    decoding of one payload is raised as it is, the results of the
    predictions before it stay uploaded and the predictions after it are
    left alone. *)
Theorem recontext_failure_keeps_uploads (image_uris_list : list string)
    (prompt : string) (sample_count : Z) (w : world) :
  let request := recontext_request config image_uris_list prompt sample_count in
  (forall e,
      service env (length (api_calls w)) request = Raise e ->
      recontextualize_product_in_scene config env image_uris_list prompt sample_count w
      = (Raise e, called request w)) /\
  (forall done bad rest e uris w1,
      service env (length (api_calls w)) request
        = Ok (PredictResponse (done ++ bad :: rest)) ->
      carries_base64 bad = true ->
      b64decode env (base64_payload bad) = Raise e ->
      upload_each env (List.filter carries_base64 done) (called request w)
        = (Ok uris, w1) ->
      recontextualize_product_in_scene config env image_uris_list prompt sample_count w
        = (Raise e, w1) /\
      exists new,
        uploads w1 = (uploads w ++ new)%list /\
        length new = length (List.filter carries_base64 done) /\
        Forall recontext_result new).
Proof.
  intros request. split.
  - intros e He. unfold recontextualize_product_in_scene, bind, call.
    fold request. rewrite He. reflexivity.
  - intros done bad rest e uris w1 Hs Hc Hbad Hdone. split.
    + rewrite (recontextualize_run _ _ _ _ _ Hs).
      rewrite List.filter_app. cbn [List.filter]. rewrite Hc.
      apply (upload_each_stops_at_failure _ _ _ _ _ _ _ Hdone Hbad).
    + destruct (upload_each_ok _ _ _ _ _ Hdone) as (_ & _ & new & Hup & Hlen & Hall).
      exists new. auto.
Qed.

Lemma string_app_length (s t : string) :
  String.length (s +:+ t) = (String.length s + String.length t)%nat.
Proof.
  induction s as [| a s IH]; [reflexivity |].
  change (String a s +:+ t) with (String a (s +:+ t)).
  cbn [String.length]. rewrite IH. reflexivity.
Qed.

Lemma string_app_cancel_r (s1 s2 t : string) : s1 +:+ t = s2 +:+ t -> s1 = s2.
Proof.
  revert s2. induction s1 as [| a s1 IH]; intros [| b s2] H.
  - reflexivity.
  - exfalso. apply (f_equal String.length) in H.
    rewrite !string_app_length in H. cbn [String.length] in H. lia.
  - exfalso. apply (f_equal String.length) in H.
    rewrite !string_app_length in H. cbn [String.length] in H. lia.
  - change (String a (s1 +:+ t) = String b (s2 +:+ t)) in H.
    injection H as -> H. f_equal. apply IH, H.
Qed.

Lemma recontext_file_name_inj :
  (forall i j, uuid4 env i = uuid4 env j -> i = j) ->
  forall i j, recontext_file_name env i = recontext_file_name env j -> i = j.
Proof.
  intros Hinj i j H. apply Hinj. unfold recontext_file_name in H.
  apply String.app_inj in H. apply string_app_cancel_r in H. exact H.
Qed.

(** The uploads of the loop are named after consecutive UUIDs. *)
Lemma store_predictions_uploads (items : list pyval) (acc : list string) (w : world) :
  exists new,
    uploads (store_predictions env items acc w).2 = (uploads w ++ new)%list /\
    uuids (store_predictions env items acc w).2 = (uuids w + length new)%nat /\
    file_name <$> new = recontext_file_name env <$> seq (uuids w) (length new) /\
    Forall recontext_result new.
Proof.
  revert acc w. induction items as [| prediction rest IH]; intros acc w.
  - exists []. simpl. rewrite app_nil_r, Nat.add_0_r. repeat split. constructor.
  - assert (Hstop : exists new : list upload,
               uploads w = (uploads w ++ new)%list /\
               uuids w = (uuids w + length new)%nat /\
               file_name <$> new = recontext_file_name env <$> seq (uuids w) (length new) /\
               Forall recontext_result new).
    { exists []. simpl. rewrite app_nil_r, Nat.add_0_r. repeat split. constructor. }
    cbn [store_predictions]. unfold bind, lift, fresh_uuid, store.
    destruct (dict_get prediction _) as [payload |]; [| exact Hstop].
    destruct (truthy payload); [| apply IH].
    destruct (dict_item prediction _) as [encoded |]; [| exact Hstop].
    destruct (b64decode env encoded) as [mask_bytes |]; [| exact Hstop].
    set (u := recontext_upload (uuid4 env (uuids w)) mask_bytes).
    destruct (store_to_gcs env u) as [gcs_uri |].
    + destruct (IH (acc ++ [gcs_uri])%list (stored u (drew w)))
        as (new & Hup & Hid & Hnames & Hall).
      exists (u :: new). split; [| split; [| split]].
      * rewrite Hup. simpl. rewrite <- app_assoc. reflexivity.
      * rewrite Hid. simpl. lia.
      * rewrite fmap_cons, Hnames. reflexivity.
      * constructor; [split; reflexivity | exact Hall].
    + exists [u]. split; [| split; [| split]].
      * reflexivity.
      * simpl. lia.
      * reflexivity.
      * constructor; [split; reflexivity | constructor].
Qed.

(** X12. Whatever the remote service answers and wherever the operation
    stops, the objects [recontextualize_product_in_scene] hands to the
    storage collaborator all go to folder [recontext_results] with MIME
    type [image/png], one fresh UUID is drawn per object, and, UUIDs being
    distinct, no two objects get the same file name. *)
Theorem recontext_file_names_distinct (image_uris_list : list string)
    (prompt : string) (sample_count : Z) (w : world) :
  (forall i j, uuid4 env i = uuid4 env j -> i = j) ->
  let w' := (recontextualize_product_in_scene config env image_uris_list prompt
                                              sample_count w).2 in
  exists new,
    uploads w' = (uploads w ++ new)%list /\
    uuids w' = (uuids w + length new)%nat /\
    NoDup (file_name <$> new) /\
    Forall recontext_result new.
Proof.
  intros Hinj w'. subst w'.
  assert (Hnone : exists new : list upload,
             uploads w = (uploads w ++ new)%list /\
             uuids w = (uuids w + length new)%nat /\
             NoDup (file_name <$> new) /\ Forall recontext_result new).
  { exists []. simpl. rewrite app_nil_r, Nat.add_0_r. repeat split; constructor. }
  unfold recontextualize_product_in_scene, bind, lift, call.
  destruct (service env _ _) as [response |]; [| exact Hnone].
  destruct (getattr response "predictions") as [predictions |]; [| exact Hnone].
  destruct (py_iter predictions) as [items |]; [| exact Hnone].
  destruct (store_predictions_uploads items []
              (called (recontext_request config image_uris_list prompt sample_count) w))
    as (new & Hup & Hid & Hnames & Hall).
  exists new. repeat split; try assumption.
  rewrite Hnames. apply NoDup_fmap_2; [| apply NoDup_seq].
  intros i j. apply recontext_file_name_inj, Hinj.
Qed.

End RecontextFailures.

Lemma sample_uuid4_inj (outcome : result pyval) (i j : nat) :
  uuid4 (sample_outside outcome) i = uuid4 (sample_outside outcome) j -> i = j.
Proof.
  cbn [uuid4 sample_outside]. intros H.
  apply String.app_inj, pretty_N_inj in H. apply Nat2N.inj, H.
Qed.

Lemma recontext_file_names_distinct_witness :
  let predictions : list (gmap string pyval) :=
    [ {[ "bytesBase64Encoded" := PStr "QUJD" ]};
      {[ "bytesBase64Encoded" := PStr "REVG" ]} ] in
  let env := sample_outside (Ok (PredictResponse predictions)) in
  exists new,
    uploads (recontextualize_product_in_scene sample_config env ["gs://a/1.png"]
               "on a beach" 2 initial_world).2 = (uploads initial_world ++ new)%list /\
    uuids (recontextualize_product_in_scene sample_config env ["gs://a/1.png"]
             "on a beach" 2 initial_world).2 = (uuids initial_world + length new)%nat /\
    NoDup (file_name <$> new) /\
    Forall recontext_result new.
Proof.
  intros predictions env.
  apply (recontext_file_names_distinct sample_config env ["gs://a/1.png"]
           "on a beach" 2 initial_world).
  apply sample_uuid4_inj.
Defined.

Example recontext_failure_sample :
  let predictions : list (gmap string pyval) :=
    [ {[ "bytesBase64Encoded" := PStr "QUJD" ]};
      {[ "bytesBase64Encoded" := PInt 7 ]};
      {[ "bytesBase64Encoded" := PStr "REVG" ]} ] in
  let env := sample_outside (Ok (PredictResponse predictions)) in
  let run := recontextualize_product_in_scene sample_config env ["gs://a/1.png"]
               "on a beach" 2 initial_world in
  run.1 = Raise (Exn TypeError "argument should be a bytes-like object or ASCII string") /\
  file_name <$> uploads run.2 = ["recontext_result_uuid-0.png"].
Proof. vm_compute. split; reflexivity. Qed.
